(** * Secret monitor: one informer per secret, shared by many handlers

    Shallow embedding of [pkg/route/secret]: the per-secret
    [singleItemMonitor] (monitor.go) and the keyed [secretMonitor]
    (secret_monitor.go) that creates a monitor on the first handler of a
    secret and tears it down when the last handler leaves.

    Every method of the two Go types takes the receiver's lock for its
    whole body, so a call is modelled as one atomic state transformer.
    The informer ([cache.SharedInformer]) and [v1.Secret] belong to
    client-go and the Kubernetes API; they are taken as parameters through
    the [SharedInformer] class, and every property below holds for every
    implementation of it.  What the goroutine of [StartInformer] does to
    an informer between two calls is a step of its own. *)

From Stdlib Require Import ZArith Lia Ascii.
From stdpp Require Import base option list gmap strings.

Set Default Proof Using "Type*".

(** ** Identity of a watched object (monitor.go, [ObjectKey]) *)

Record ObjectKey := mkObjectKey { Namespace : string; Name : string }.

Definition NewObjectKey (namespace name : string) : ObjectKey :=
  {| Namespace := namespace; Name := name |}.

#[global] Instance ObjectKey_eq_dec : EqDecision ObjectKey.
Proof. solve_decision. Defined.

#[global] Instance ObjectKey_countable : Countable ObjectKey.
Proof.
  refine (inj_countable' (fun k => (Namespace k, Name k))
                         (fun p => NewObjectKey p.1 p.2) _).
  intros []; reflexivity.
Defined.

(** ** Go values shared by both types *)

(** The errors the package builds with [fmt.Errorf], one constructor per
    call site, and [ErrInformer] for an error value handed back by the
    informer or its store, which the package returns as it is. *)
Inductive error :=
| ErrNilRegistration                    (* "secret handler is nil" *)
| ErrAddToStopped                       (* "can not add hanler %v to already stopped informer" *)
| ErrRemoveFromStopped                  (* "can not remove handler %v from stopped informer" *)
| ErrNoMonitor (key : ObjectKey)        (* "secret monitor doesn't exist for key %v" *)
| ErrNotInCache (secretName : string)   (* "secret %s doesn't exist in cache" *)
| ErrUnexpectedType                     (* "unexpected type: %T" *)
| ErrInformer (msg : string).

(** A Go pair [(value, error)] in which exactly one side is set. *)
Inductive result (A : Type) :=
| Ok (a : A)
| Err (e : error).
Arguments Ok {A} a.
Arguments Err {A} e.

(** A call either returns or panics (nil dereference, closing a closed
    channel).  The deferred [Unlock] runs in both cases. *)
Inductive outcome (A : Type) :=
| Ret (a : A)
| Panic.
Arguments Ret {A} a.
Arguments Panic {A}.

Definition returns {A} (o : outcome A) : Prop :=
  match o with Ret _ => True | Panic => False end.

(** [atomic.Int32]: two's complement on 32 bits; [Add] wraps. *)
Definition int32_min : Z := - 2 ^ 31.
Definition int32_max : Z := 2 ^ 31 - 1.
Definition wrap32 (z : Z) : Z := ((z + 2 ^ 31) mod 2 ^ 32 - 2 ^ 31)%Z.
Definition int32_Add (n delta : Z) : Z := wrap32 (n + delta).

(** [chan struct{}] used only as a cancellation signal: all that matters
    is whether it has been closed.  Closing a closed channel panics. *)
Inductive chan := ChanOpen | ChanClosed.

Definition close (c : chan) : outcome chan :=
  match c with
  | ChanOpen => Ret ChanClosed
  | ChanClosed => Panic
  end.

(** What a [cache.Store] hands back as [interface{}]: nothing, a
    [*v1.Secret] (a store keeps the objects the watch decoded, so the
    pointer is not nil), or a value of some other dynamic type. *)
Inductive item (Secret : Type) :=
| ItemNil
| ItemSecret (s : Secret)
| ItemOther (dynamicType : string).
Arguments ItemNil {Secret}.
Arguments ItemSecret {Secret} s.
Arguments ItemOther {Secret} dynamicType.

(** ** The informer, as the package uses it

    [Handler] is [cache.ResourceEventHandler], [Token] is
    [cache.ResourceEventHandlerRegistration], [Informer] is the state
    behind a [cache.SharedInformer].  Only the four entry points the
    package calls are listed; each returns the informer's next state. *)
Class SharedInformer (Handler Token Secret Informer : Type) := {
  (* cache.NewSharedInformer over a list-watch on "secrets" in the
     namespace, selected by metadata.name *)
  NewSharedInformer : string -> string -> Informer;
  (* informer.AddEventHandler(handler) *)
  informer_AddEventHandler : Handler -> Informer -> result Token * Informer;
  (* informer.RemoveEventHandler(handle) *)
  informer_RemoveEventHandler : Token -> Informer -> option error * Informer;
  (* informer.GetStore().GetByKey(key) *)
  informer_GetByKey : string -> Informer -> item Secret * bool * option error;
}.

Section Monitor.

Context {Handler Token Secret Informer : Type}.
Context `{!SharedInformer Handler Token Secret Informer}.

(** ** Registration handle (secret_monitor.go) *)

Record secretEventHandlerRegistration := mkRegistration {
  ResourceEventHandlerRegistration : Token;
  objectKey : ObjectKey;
}.

(** A value of the interface [SecretEventHandlerRegistration]; [None] is
    the nil interface.  Calling a method on it panics.  The values
    covered are the nil interface and what [AddEventHandler] returns, a
    pointer to a [secretEventHandlerRegistration]; an interface value
    holding a nil pointer, or another implementation of the interface,
    has no counterpart here. *)
Definition SecretEventHandlerRegistration : Type :=
  option secretEventHandlerRegistration.

Definition GetKey (r : SecretEventHandlerRegistration) : outcome ObjectKey :=
  match r with
  | Some reg => Ret (objectKey reg)
  | None => Panic
  end.

Definition GetHandler (r : SecretEventHandlerRegistration) : outcome Token :=
  match r with
  | Some reg => Ret (ResourceEventHandlerRegistration reg)
  | None => Panic
  end.

(** ** singleItemMonitor (monitor.go) *)

Record singleItemMonitor := mkMonitor {
  key : ObjectKey;
  informer : Informer;
  numHandlers : Z;
  stopped : bool;
  stopCh : chan;
}.

Definition newSingleItemMonitor (k : ObjectKey) (inf : Informer) : singleItemMonitor :=
  {| key := k; informer := inf; numHandlers := 0; stopped := false; stopCh := ChanOpen |}.

Definition set_informer (inf : Informer) (i : singleItemMonitor) : singleItemMonitor :=
  {| key := key i; informer := inf; numHandlers := numHandlers i;
     stopped := stopped i; stopCh := stopCh i |}.

Definition set_numHandlers (n : Z) (i : singleItemMonitor) : singleItemMonitor :=
  {| key := key i; informer := informer i; numHandlers := n;
     stopped := stopped i; stopCh := stopCh i |}.

Definition set_stopped (b : bool) (i : singleItemMonitor) : singleItemMonitor :=
  {| key := key i; informer := informer i; numHandlers := numHandlers i;
     stopped := b; stopCh := stopCh i |}.

Definition set_stopCh (c : chan) (i : singleItemMonitor) : singleItemMonitor :=
  {| key := key i; informer := informer i; numHandlers := numHandlers i;
     stopped := stopped i; stopCh := c |}.

(** [StopInformer]: the flag is set before the channel is closed, so a
    panic in [close] leaves the flag set. *)
Definition StopInformer (i : singleItemMonitor) : outcome bool * singleItemMonitor :=
  if stopped i then (Ret false, i)
  else
    let i1 := set_stopped true i in
    match close (stopCh i1) with
    | Ret c => (Ret true, set_stopCh c i1)
    | Panic => (Panic, i1)
    end.

Definition AddEventHandler (handler : Handler) (i : singleItemMonitor)
  : result secretEventHandlerRegistration * singleItemMonitor :=
  if stopped i then (Err ErrAddToStopped, i)
  else
    match informer_AddEventHandler handler (informer i) with
    | (Err err, inf) => (Err err, set_informer inf i)
    | (Ok registration, inf) =>
        let i1 := set_informer inf i in
        let i2 := set_numHandlers (int32_Add (numHandlers i1) 1) i1 in
        (Ok {| ResourceEventHandlerRegistration := registration;
               objectKey := key i2 |}, i2)
    end.

(** [RemoveEventHandler]: [handle.GetHandler()] is evaluated on both
    paths (as an argument of [fmt.Errorf] on the first), before anything
    is changed. *)
Definition RemoveEventHandler (handle : SecretEventHandlerRegistration)
    (i : singleItemMonitor) : outcome (option error) * singleItemMonitor :=
  if stopped i then
    match GetHandler handle with
    | Panic => (Panic, i)
    | Ret _ => (Ret (Some ErrRemoveFromStopped), i)
    end
  else
    match GetHandler handle with
    | Panic => (Panic, i)
    | Ret h =>
        match informer_RemoveEventHandler h (informer i) with
        | (Some err, inf) => (Ret (Some err), set_informer inf i)
        | (None, inf) =>
            let i1 := set_informer inf i in
            (Ret None, set_numHandlers (int32_Add (numHandlers i1) (-1)) i1)
        end
    end.

Definition GetItem (i : singleItemMonitor) : item Secret * bool * option error :=
  let keyFunc := (Namespace (key i) +:+ "/" +:+ Name (key i))%string in
  informer_GetByKey keyFunc (informer i).

(** ** secretMonitor (secret_monitor.go)

    [monitors] is a Go map of pointers.  The pointed-to monitors live in
    [objects], in allocation order; an address is an index into it.
    [delete(s.monitors, key)] drops the pointer, not the object, so
    [objects] also remembers the monitors that were torn down.  A Go
    pointer is never dangling; the methods below answer [Panic] for an
    address outside [objects], and [wf] shows that none is ever stored.
    The [kubeClient] field is only read to build the production informer,
    which is [NewSharedInformer] here: the monitor is taken to have been
    built with a client, and a nil [kubeClient] has no counterpart. *)

Record secretMonitor := mkSecretMonitor {
  objects : list singleItemMonitor;
  monitors : gmap ObjectKey nat;
}.

Definition NewSecretMonitor : secretMonitor :=
  {| objects := []; monitors := ∅ |}.

Definition set_object (a : nat) (m : singleItemMonitor) (s : secretMonitor) : secretMonitor :=
  {| objects := <[a := m]> (objects s); monitors := monitors s |}.

(** [createInformerFn] is nil ([None]) in production; tests pass a
    function, modelled by the informer it returns. *)
Definition addSecretEventHandler (namespace secretName : string) (handler : Handler)
    (createInformerFn : option Informer) (s : secretMonitor)
  : outcome (result secretEventHandlerRegistration) * secretMonitor :=
  let key := NewObjectKey namespace secretName in
  let '(m, s1) :=
    match monitors s !! key with
    | Some m => (m, s)
    | None =>
        let sharedInformer :=
          match createInformerFn with
          | None => NewSharedInformer namespace secretName
          | Some fn => fn
          end in
        let m := length (objects s) in
        (m, {| objects := objects s ++ [newSingleItemMonitor key sharedInformer];
               monitors := <[key := m]> (monitors s) |})
    end in
  match objects s1 !! m with
  | None => (Panic, s1)
  | Some i =>
      let '(r, i1) := AddEventHandler handler i in
      (Ret r, set_object m i1 s1)
  end.

Definition AddSecretEventHandler (namespace secretName : string) (handler : Handler)
    (s : secretMonitor) :=
  addSecretEventHandler namespace secretName handler None s.

Definition RemoveSecretEventHandler (handlerRegistration : SecretEventHandlerRegistration)
    (s : secretMonitor) : outcome (option error) * secretMonitor :=
  match handlerRegistration with
  | None => (Ret (Some ErrNilRegistration), s)
  | Some reg =>
      let key := objectKey reg in (* handlerRegistration.GetKey() *)
      match monitors s !! key with
      | None => (Ret None, s)
      | Some m =>
          match objects s !! m with
          | None => (Panic, s)
          | Some i =>
              match RemoveEventHandler handlerRegistration i with
              | (Panic, i1) => (Panic, set_object m i1 s)
              | (Ret (Some err), i1) => (Ret (Some err), set_object m i1 s)
              | (Ret None, i1) =>
                  if (numHandlers i1 <=? 0)%Z then
                    match StopInformer i1 with
                    | (Panic, i2) => (Panic, set_object m i2 s)
                    | (Ret _, i2) =>
                        (Ret None, {| objects := <[m := i2]> (objects s);
                                      monitors := delete key (monitors s) |})
                    end
                  else (Ret None, set_object m i1 s)
              end
          end
      end
  end.

(** [GetSecret] holds the read lock and changes nothing.  The argument
    given to [GetItem] in secret_monitor.go is not used by the monitor,
    whose lookup key is built from its own [key]. *)
Definition GetSecret (handlerRegistration : SecretEventHandlerRegistration)
    (s : secretMonitor) : outcome (result Secret) :=
  match handlerRegistration with
  | None => Ret (Err ErrNilRegistration)
  | Some reg =>
      let key := objectKey reg in
      let secretName := Name key in
      match monitors s !! key with
      | None => Ret (Err (ErrNoMonitor key))
      | Some m =>
          match objects s !! m with
          | None => Panic
          | Some i =>
              let '(uncast, exists_, err) := GetItem i in
              if negb exists_ then Ret (Err (ErrNotInCache secretName))
              else
                match err with
                | Some e => Ret (Err e)
                | None =>
                    match uncast with
                    | ItemSecret secret => Ret (Ok secret)
                    | _ => Ret (Err ErrUnexpectedType)
                    end
                end
          end
      end
  end.

(** ** Sequences of calls

    Besides the three methods of [SecretMonitor], a step of the
    goroutine started by [go m.StartInformer()]: [informer.Run] moves the
    informer of one monitor to a state of its choosing and touches nothing
    else. *)

Inductive call :=
| CallAdd (namespace secretName : string) (handler : Handler)
          (createInformerFn : option Informer)
| CallRemove (handlerRegistration : SecretEventHandlerRegistration)
| CallGet (handlerRegistration : SecretEventHandlerRegistration)
| InformerRun (m : nat) (inf : Informer).

Inductive reply :=
| ReplyAdd (r : result secretEventHandlerRegistration)
| ReplyRemove (err : option error)
| ReplyGet (r : result Secret)
| ReplyNone.

Definition omap {A B} (f : A -> B) (o : outcome A) : outcome B :=
  match o with Ret a => Ret (f a) | Panic => Panic end.

Definition exec (c : call) (s : secretMonitor) : outcome reply * secretMonitor :=
  match c with
  | CallAdd namespace secretName handler fn =>
      let '(o, s1) := addSecretEventHandler namespace secretName handler fn s in
      (omap ReplyAdd o, s1)
  | CallRemove h =>
      let '(o, s1) := RemoveSecretEventHandler h s in
      (omap ReplyRemove o, s1)
  | CallGet h => (omap ReplyGet (GetSecret h s), s)
  | InformerRun m inf =>
      match objects s !! m with
      | Some i => (Ret ReplyNone, set_object m (set_informer inf i) s)
      | None => (Ret ReplyNone, s)
      end
  end.

(** The replies of a sequence of calls, each with the state it left. *)
Fixpoint trace (cs : list call) (s : secretMonitor) : list (outcome reply * secretMonitor) :=
  match cs with
  | [] => []
  | c :: cs' => let '(o, s1) := exec c s in (o, s1) :: trace cs' s1
  end.

Definition run (cs : list call) (s : secretMonitor) : secretMonitor :=
  foldl (fun st c => (exec c st).2) s cs.

Definition is_add_ok (x : outcome reply * secretMonitor) : bool :=
  match x.1 with Ret (ReplyAdd (Ok _)) => true | _ => false end.

Definition is_remove_ok (x : outcome reply * secretMonitor) : bool :=
  match x.1 with Ret (ReplyRemove None) => true | _ => false end.

Definition count_ok (f : outcome reply * secretMonitor -> bool)
    (t : list (outcome reply * secretMonitor)) : Z :=
  Z.of_nat (length (filter (fun x => f x = true) t)).

(** Calls of one monitor, for the counter of [singleItemMonitor] alone. *)
Inductive mcall :=
| MAdd (handler : Handler)
| MRemove (handle : SecretEventHandlerRegistration)
| MStop.

Definition mexec (c : mcall) (i : singleItemMonitor) : singleItemMonitor :=
  match c with
  | MAdd h => (AddEventHandler h i).2
  | MRemove h => (RemoveEventHandler h i).2
  | MStop => (StopInformer i).2
  end.

Definition mrun (cs : list mcall) (i : singleItemMonitor) : singleItemMonitor :=
  foldl (fun st c => mexec c st) i cs.

(** ** State invariants *)

(** The flag and the channel agree. *)
Definition monitor_ok (i : singleItemMonitor) : Prop :=
  stopped i = true <-> stopCh i = ChanClosed.

Record wf (s : secretMonitor) : Prop := {
  (* every mapped pointer is valid, filed under its own key, running *)
  wf_mapped : forall k a, monitors s !! k = Some a ->
      exists i, objects s !! a = Some i /\ key i = k /\ stopped i = false;
  (* every monitor that is not stopped is the one the map holds for its key *)
  wf_live : forall a i, objects s !! a = Some i -> stopped i = false ->
      monitors s !! key i = Some a;
  wf_chan : forall a i, objects s !! a = Some i -> monitor_ok i;
}.

(** Every mapped monitor has a counter between 0 and [n]. *)
Definition counters_within (n : Z) (s : secretMonitor) : Prop :=
  forall k a i, monitors s !! k = Some a -> objects s !! a = Some i ->
    (0 <= numHandlers i <= n)%Z.

(** A call that concerns the identity [k] (or no identity at all). *)
Definition targets (k : ObjectKey) (c : call) : Prop :=
  match c with
  | CallAdd namespace secretName _ _ => NewObjectKey namespace secretName = k
  | CallRemove (Some reg) => objectKey reg = k
  | CallRemove None => True
  | CallGet _ => True
  | InformerRun _ _ => True
  end.

(** The name under which [GetItem] asks the store for the object. *)
Definition keyFunc (k : ObjectKey) : string :=
  (Namespace k +:+ "/" +:+ Name k)%string.

Fixpoint slash_free (s : string) : bool :=
  match s with
  | EmptyString => true
  | String c s' => negb (Ascii.eqb c "/"%char) && slash_free s'
  end.

(** A call of one of the three methods, as opposed to a step of an
    informer's goroutine. *)
Definition is_method (c : call) : Prop :=
  match c with
  | InformerRun _ _ => False
  | _ => True
  end.

(** The identity a call names, if it names one. *)
Definition call_key (c : call) : option ObjectKey :=
  match c with
  | CallAdd namespace secretName _ _ => Some (NewObjectKey namespace secretName)
  | CallRemove (Some reg) => Some (objectKey reg)
  | CallGet (Some reg) => Some (objectKey reg)
  | _ => None
  end.

(** Every monitor that has been stopped counts no listener. *)
Definition stopped_idle (s : secretMonitor) : Prop :=
  forall a i, objects s !! a = Some i -> stopped i = true ->
    (numHandlers i <= 0)%Z.

(** Every mapped monitor counts between 1 and [n] listeners. *)
Definition listeners_within (n : Z) (s : secretMonitor) : Prop :=
  forall k a i, monitors s !! k = Some a -> objects s !! a = Some i ->
    (1 <= numHandlers i <= n)%Z.



(** A call that adds a handler for the identity [k]. *)
Definition adds_for (k : ObjectKey) (c : call) : Prop :=
  match c with
  | CallAdd namespace secretName _ _ => NewObjectKey namespace secretName = k
  | _ => False
  end.

(** An informer that never refuses a handler. *)
Definition accepts_all : Prop :=
  forall (handler : Handler) (inf : Informer),
    exists t inf', informer_AddEventHandler handler inf = (Ok t, inf').

End Monitor.

(** ** A test double for the informer

    Used to run the package on concrete inputs.  It follows client-go's
    shared informer where the package can tell: a handler, nil or not, is
    refused only by an informer that has stopped, listeners are kept in a
    set, removing a listener that is not (or no longer) registered is
    accepted, a handle of a foreign type is refused.  Of its own, its
    store can be told to report an error. *)

Record fakeInformer := mkFake {
  fi_stopped : bool;
  fi_listeners : list nat;
  fi_next : nat;
  fi_store : list (string * item string);
  fi_storeErr : option error;
}.

Definition fake_new (namespace secretName : string) : fakeInformer :=
  {| fi_stopped := false; fi_listeners := []; fi_next := 0;
     fi_store := []; fi_storeErr := None |}.

Definition fake_add (handler : option string) (inf : fakeInformer)
  : result (option nat) * fakeInformer :=
  if fi_stopped inf then (Err (ErrInformer "informer has stopped already"), inf)
  else
    (Ok (Some (fi_next inf)),
     {| fi_stopped := fi_stopped inf;
        fi_listeners := fi_next inf :: fi_listeners inf;
        fi_next := S (fi_next inf);
        fi_store := fi_store inf;
        fi_storeErr := fi_storeErr inf |}).

Definition fake_remove (handle : option nat) (inf : fakeInformer)
  : option error * fakeInformer :=
  match handle with
  | None => (Some (ErrInformer "invalid key type"), inf)
  | Some l =>
      (None,
       {| fi_stopped := fi_stopped inf;
          fi_listeners := filter (fun x => x <> l) (fi_listeners inf);
          fi_next := fi_next inf;
          fi_store := fi_store inf;
          fi_storeErr := fi_storeErr inf |})
  end.

Fixpoint assoc {A} (k : string) (l : list (string * A)) : option A :=
  match l with
  | [] => None
  | (k', v) :: l' => if String.eqb k k' then Some v else assoc k l'
  end.

Definition fake_get (k : string) (inf : fakeInformer)
  : item string * bool * option error :=
  match assoc k (fi_store inf) with
  | Some it => (it, true, fi_storeErr inf)
  | None => (ItemNil, false, None)
  end.

#[global] Instance fake_SharedInformer
  : SharedInformer (option string) (option nat) string fakeInformer :=
  {| NewSharedInformer := fake_new;
     informer_AddEventHandler := fake_add;
     informer_RemoveEventHandler := fake_remove;
     informer_GetByKey := fake_get |}.

(** A second double, which accepts every handler: its state is the
    number of handlers it was given, its tokens are their ranks. *)
Definition countingInformer : SharedInformer unit nat string nat :=
  {| NewSharedInformer := fun _ _ => 0%nat;
     informer_AddEventHandler := fun _ n => (Ok n, S n);
     informer_RemoveEventHandler := fun _ n => (None, n);
     informer_GetByKey := fun _ _ => (ItemNil, false, None) |}.

(** The identity used by the package's tests. *)
Definition testKey : ObjectKey := NewObjectKey "ns" "secret".

Definition testHandler : option string := Some "handler".



Definition testMonitor : @singleItemMonitor fakeInformer :=
  newSingleItemMonitor testKey (fake_new "ns" "secret").

Definition testRegistration : @secretEventHandlerRegistration (option nat) :=
  {| ResourceEventHandlerRegistration := Some 0%nat; objectKey := testKey |}.

(** A registration whose handle is not one of the informer's, and a
    registration for an identity nobody registered. *)
Definition foreignRegistration : @secretEventHandlerRegistration (option nat) :=
  {| ResourceEventHandlerRegistration := None; objectKey := testKey |}.

Definition otherRegistration : @secretEventHandlerRegistration (option nat) :=
  {| ResourceEventHandlerRegistration := Some 0%nat;
     objectKey := NewObjectKey "ns" "other" |}.

(** The state after one successful [AddSecretEventHandler]. *)
Definition testState : @secretMonitor fakeInformer :=
  run [CallAdd "ns" "secret" testHandler None] NewSecretMonitor.

(** Informers a test can hand to [addSecretEventHandler]: one whose
    store holds the secret, one whose store reports an error along with
    the entry, one whose store holds something else under the key, and
    one that has already stopped. *)
Definition fake_with_secret : fakeInformer :=
  {| fi_stopped := false; fi_listeners := []; fi_next := 0;
     fi_store := [("ns/secret"%string, ItemSecret "payload"%string)];
     fi_storeErr := None |}.

Definition fake_with_store_error : fakeInformer :=
  {| fi_stopped := false; fi_listeners := []; fi_next := 0;
     fi_store := [("ns/secret"%string, ItemSecret "payload"%string)];
     fi_storeErr := Some (ErrInformer "store failure") |}.

Definition fake_with_other : fakeInformer :=
  {| fi_stopped := false; fi_listeners := []; fi_next := 0;
     fi_store := [("ns/secret"%string, ItemOther "*v1.ConfigMap")];
     fi_storeErr := None |}.

Definition fake_stopped : fakeInformer :=
  {| fi_stopped := true; fi_listeners := []; fi_next := 0;
     fi_store := []; fi_storeErr := None |}.

(** The state after [addSecretEventHandler] was handed the informer that
    had already stopped. *)
Definition refusedState : @secretMonitor fakeInformer :=
  run [CallAdd "ns" "secret" testHandler (Some fake_stopped)] NewSecretMonitor.

(** * Properties *)

Section Properties.

Context {Handler Token Secret Informer : Type}.
Context `{!SharedInformer Handler Token Secret Informer}.

Implicit Types (i : @singleItemMonitor Informer) (s : @secretMonitor Informer).
Implicit Types (reg : @secretEventHandlerRegistration Token).
Implicit Types (handler : Handler).

(** ** 32-bit arithmetic *)

Lemma wrap32_id (z : Z) : (int32_min <= z <= int32_max)%Z -> wrap32 z = z.
Proof.
  unfold wrap32, int32_min, int32_max. intros Hz.
  rewrite Z.mod_small; lia.
Qed.

Lemma wrap32_range (z : Z) : (int32_min <= wrap32 z <= int32_max)%Z.
Proof.
  unfold wrap32, int32_min, int32_max.
  pose proof (Z.mod_pos_bound (z + 2 ^ 31) (2 ^ 32) ltac:(lia)). lia.
Qed.

Lemma wrap32_add_l (x d : Z) : wrap32 (wrap32 x + d) = wrap32 (x + d).
Proof.
  unfold wrap32. f_equal.
  replace ((x + 2 ^ 31) mod 2 ^ 32 - 2 ^ 31 + d + 2 ^ 31)%Z
    with ((x + 2 ^ 31) mod 2 ^ 32 + d)%Z by lia.
  rewrite Zplus_mod_idemp_l. f_equal. lia.
Qed.

Lemma int32_Add_small (n d : Z) :
  (int32_min <= n + d <= int32_max)%Z -> int32_Add n d = (n + d)%Z.
Proof. apply wrap32_id. Qed.

(** ** singleItemMonitor, one call at a time *)

Lemma monitor_ok_new (k : ObjectKey) (inf : Informer) :
  monitor_ok (newSingleItemMonitor k inf).
Proof. unfold monitor_ok; simpl; split; discriminate. Qed.

Lemma monitor_ok_running i :
  monitor_ok i -> stopped i = false -> stopCh i = ChanOpen.
Proof.
  intros [_ Hc] Hs. destruct (stopCh i); [done|].
  rewrite Hc in Hs; done.
Qed.

Lemma StopInformer_running i :
  monitor_ok i -> stopped i = false ->
  StopInformer i = (Ret true, set_stopCh ChanClosed (set_stopped true i)).
Proof.
  intros Hok Hs. unfold StopInformer. rewrite Hs. simpl.
  rewrite (monitor_ok_running i Hok Hs). reflexivity.
Qed.

Lemma StopInformer_stopped i :
  stopped i = true -> StopInformer i = (Ret false, i).
Proof. intros Hs. unfold StopInformer. rewrite Hs. reflexivity. Qed.

Lemma AddEventHandler_fields handler i :
  let i1 := (AddEventHandler handler i).2 in
  key i1 = key i /\ stopped i1 = stopped i /\ stopCh i1 = stopCh i.
Proof.
  unfold AddEventHandler. destruct (stopped i) eqn:Hs; simpl; [done|].
  destruct (informer_AddEventHandler handler (informer i)) as [[t|e] inf];
    simpl; by rewrite ?Hs.
Qed.

Lemma RemoveEventHandler_fields (h : @SecretEventHandlerRegistration Token) i :
  let i1 := (RemoveEventHandler h i).2 in
  key i1 = key i /\ stopped i1 = stopped i /\ stopCh i1 = stopCh i.
Proof.
  unfold RemoveEventHandler.
  destruct (stopped i) eqn:Hs, h as [reg|]; simpl; try done.
  destruct (informer_RemoveEventHandler _ (informer i)) as [[e|] inf];
    simpl; by rewrite ?Hs.
Qed.

Lemma StopInformer_fields i :
  let i1 := (StopInformer i).2 in
  key i1 = key i /\ stopped i1 = true /\ numHandlers i1 = numHandlers i.
Proof.
  unfold StopInformer. destruct (stopped i) eqn:Hs; simpl; [by rewrite ?Hs|].
  by destruct (stopCh i).
Qed.

Lemma mexec_stopped (c : @mcall Handler Token) i :
  stopped i = true -> stopped (mexec c i) = true.
Proof.
  intros Hs. destruct c as [h|h|]; simpl.
  - destruct (AddEventHandler_fields h i) as (_ & -> & _); done.
  - destruct (RemoveEventHandler_fields h i) as (_ & -> & _); done.
  - by destruct (StopInformer_fields i) as (_ & -> & _).
Qed.

Lemma mrun_stopped (cs : list (@mcall Handler Token)) i :
  stopped i = true -> stopped (mrun cs i) = true.
Proof.
  revert i. induction cs as [|c cs IH]; intros i Hs; [done|].
  simpl. apply IH. by apply mexec_stopped.
Qed.

Lemma monitor_ok_mexec (c : @mcall Handler Token) i :
  monitor_ok i -> monitor_ok (mexec c i).
Proof.
  intros Hok. destruct c as [h|h|]; simpl.
  - destruct (AddEventHandler_fields h i) as (_ & H2 & H3).
    unfold monitor_ok in *. by rewrite H2, H3.
  - destruct (RemoveEventHandler_fields h i) as (_ & H2 & H3).
    unfold monitor_ok in *. by rewrite H2, H3.
  - destruct (stopped i) eqn:Hs.
    + by rewrite StopInformer_stopped.
    + by rewrite StopInformer_running.
Qed.

Lemma monitor_ok_mrun (cs : list (@mcall Handler Token)) i :
  monitor_ok i -> monitor_ok (mrun cs i).
Proof.
  revert i. induction cs as [|c cs IH]; intros i Hok; [done|].
  simpl. apply IH. by apply monitor_ok_mexec.
Qed.

(** C4. [StopInformer] is idempotent.  On a monitor whose flag and
    channel agree (as they do from [newSingleItemMonitor] on), the first
    call returns true, sets the flag and closes the channel; a call on a
    stopped monitor returns false and changes nothing; and no sequence of
    calls brings a stopped monitor back to running. *)
Theorem StopInformer_idempotent i :
  monitor_ok i ->
  (stopped i = false ->
     exists i1, StopInformer i = (Ret true, i1) /\
       stopped i1 = true /\ stopCh i1 = ChanClosed /\
       StopInformer i1 = (Ret false, i1)) /\
  (stopped i = true -> StopInformer i = (Ret false, i)) /\
  (forall cs : list (@mcall Handler Token),
     stopped i = true -> stopped (mrun cs i) = true).
Proof.
  intros Hok. split; [|split].
  - intros Hs. eexists. split; [by apply StopInformer_running|].
    repeat split; try reflexivity.
  - apply StopInformer_stopped.
  - intros cs Hs. by apply mrun_stopped.
Qed.

(** C5. [AddEventHandler] on a stopped monitor returns an error and
    leaves the monitor (its counter included) as it was.  On a running
    monitor, with a handler the informer accepts, it returns a
    registration whose [GetKey] is the monitor's key and whose
    [GetHandler] is the informer's token, and the counter is incremented
    by one: an [int32] addition, which is [+ 1] on the integers below the
    32-bit maximum. *)
Theorem AddEventHandler_spec handler i :
  (stopped i = true -> AddEventHandler handler i = (Err ErrAddToStopped, i)) /\
  (forall (t : Token) (inf : Informer),
     stopped i = false ->
     informer_AddEventHandler handler (informer i) = (Ok t, inf) ->
     exists reg i1,
       AddEventHandler handler i = (Ok reg, i1) /\
       GetKey (Some reg) = Ret (key i) /\
       GetHandler (Some reg) = Ret t /\
       numHandlers i1 = int32_Add (numHandlers i) 1 /\
       ((int32_min <= numHandlers i < int32_max)%Z ->
          numHandlers i1 = (numHandlers i + 1)%Z) /\
       key i1 = key i /\ stopped i1 = false).
Proof.
  split.
  - intros Hs. unfold AddEventHandler. by rewrite Hs.
  - intros t inf Hs Hadd. unfold AddEventHandler. rewrite Hs, Hadd. simpl.
    do 2 eexists. split; [reflexivity|]. simpl. repeat split; try done.
    intros Hr. apply int32_Add_small. unfold int32_min, int32_max in *. lia.
Qed.

(** C6, as the code has it.  On a stopped monitor [RemoveEventHandler]
    with a registration returns the stopped-informer error and changes
    nothing, the counter included.  The typed error for a nil
    registration comes from [RemoveSecretEventHandler], which checks for
    nil before it reaches any monitor. *)
Theorem RemoveEventHandler_stopped_and_nil_guard :
  (forall i reg, stopped i = true ->
     RemoveEventHandler (Some reg) i = (Ret (Some ErrRemoveFromStopped), i)) /\
  (forall s, RemoveSecretEventHandler None s = (Ret (Some ErrNilRegistration), s)).
Proof.
  split.
  - intros i reg Hs. unfold RemoveEventHandler. by rewrite Hs.
  - reflexivity.
Qed.

(** ** secretMonitor, one call at a time *)

(** C8. [RemoveSecretEventHandler] returns an error for a nil
    registration, and returns nil, changing nothing, for a registration
    whose key has no entry in [monitors]. *)
Theorem RemoveSecretEventHandler_nil_or_absent s :
  RemoveSecretEventHandler None s = (Ret (Some ErrNilRegistration), s) /\
  (forall reg, monitors s !! objectKey reg = None ->
     RemoveSecretEventHandler (Some reg) s = (Ret None, s)).
Proof.
  split; [reflexivity|].
  intros reg Hk. unfold RemoveSecretEventHandler. by rewrite Hk.
Qed.

(** C10. When the monitor's [RemoveEventHandler] returns an error,
    [RemoveSecretEventHandler] returns that error; the map is unchanged,
    and the monitor keeps its key, its flag, its channel and its counter
    (only the informer behind it may have moved). *)
Theorem RemoveSecretEventHandler_delegated_failure s reg (a : nat) i i1 (err : error) :
  monitors s !! objectKey reg = Some a ->
  objects s !! a = Some i ->
  RemoveEventHandler (Some reg) i = (Ret (Some err), i1) ->
  exists s1,
    RemoveSecretEventHandler (Some reg) s = (Ret (Some err), s1) /\
    monitors s1 = monitors s /\
    objects s1 = <[a := i1]> (objects s) /\
    key i1 = key i /\ stopped i1 = stopped i /\ stopCh i1 = stopCh i /\
    numHandlers i1 = numHandlers i.
Proof.
  intros Hk Ha Hrm. unfold RemoveSecretEventHandler. rewrite Hk, Ha, Hrm.
  eexists. split; [reflexivity|]. simpl.
  pose proof (RemoveEventHandler_fields (Some reg) i) as Hf.
  rewrite Hrm in Hf. simpl in Hf. destruct Hf as (Hf1 & Hf2 & Hf3).
  repeat split; try done.
  revert Hrm. unfold RemoveEventHandler. destruct (stopped i); simpl.
  - intros [= _ <-]. reflexivity.
  - destruct (informer_RemoveEventHandler _ (informer i)) as [[e|] inf].
    + intros [= _ <-]. reflexivity.
    + discriminate.
Qed.

(** C3. After a successful delegated removal, [RemoveSecretEventHandler]
    returns nil; if the monitor's counter is then zero (or less) the
    monitor is stopped, its channel closed and its map entry deleted; if
    the counter is still positive the entry stays and the monitor keeps
    running. *)
Theorem RemoveSecretEventHandler_last_listener s reg (a : nat) i i1 :
  wf s ->
  monitors s !! objectKey reg = Some a ->
  objects s !! a = Some i ->
  RemoveEventHandler (Some reg) i = (Ret None, i1) ->
  ((numHandlers i1 <= 0)%Z ->
     exists i2,
       StopInformer i1 = (Ret true, i2) /\
       stopped i2 = true /\ stopCh i2 = ChanClosed /\
       RemoveSecretEventHandler (Some reg) s =
         (Ret None, {| objects := <[a := i2]> (objects s);
                       monitors := delete (objectKey reg) (monitors s) |})) /\
  ((0 < numHandlers i1)%Z ->
     RemoveSecretEventHandler (Some reg) s =
       (Ret None, {| objects := <[a := i1]> (objects s); monitors := monitors s |}) /\
     stopped i1 = false /\ stopCh i1 = ChanOpen).
Proof.
  intros Hwf Hk Ha Hrm.
  pose proof (wf_chan s Hwf a i Ha) as Hok.
  destruct (wf_mapped s Hwf _ _ Hk) as (i' & Ha' & _ & Hrun).
  rewrite Ha in Ha'. injection Ha' as <-.
  pose proof (RemoveEventHandler_fields (Some reg) i) as Hf.
  rewrite Hrm in Hf. simpl in Hf. destruct Hf as (Hf1 & Hf2 & Hf3).
  assert (Hok1 : monitor_ok i1) by (unfold monitor_ok; by rewrite Hf2, Hf3).
  assert (Hrun1 : stopped i1 = false) by congruence.
  unfold RemoveSecretEventHandler. rewrite Hk, Ha, Hrm.
  split.
  - intros Hn. apply Z.leb_le in Hn. rewrite Hn.
    rewrite (StopInformer_running i1 Hok1 Hrun1).
    eexists. split; [reflexivity|]. repeat split; reflexivity.
  - intros Hn. apply Z.leb_gt in Hn. rewrite Hn.
    repeat split; [done|].
    by apply monitor_ok_running.
Qed.

(** ** The three ways a call changes the state

    A call rewrites one monitor in place, allocates a monitor and files
    it under its key, or stops a monitor and deletes its map entry. *)

Lemma wf_new : wf (@NewSecretMonitor Informer).
Proof.
  split.
  - intros k a Hk. simpl in Hk. by rewrite lookup_empty in Hk.
  - intros a i Ha. simpl in Ha. by rewrite lookup_nil in Ha.
  - intros a i Ha. simpl in Ha. by rewrite lookup_nil in Ha.
Qed.

Lemma wf_update s (a : nat) i i1 :
  wf s -> objects s !! a = Some i ->
  key i1 = key i -> stopped i1 = stopped i -> stopCh i1 = stopCh i ->
  wf (set_object a i1 s).
Proof.
  intros Hwf Ha Hk Hs Hc.
  pose proof (lookup_lt_Some _ _ _ Ha) as Hlt.
  split; simpl.
  - intros k b Hb. destruct (wf_mapped s Hwf k b Hb) as (j & Hj & Hkj & Hsj).
    destruct (decide (a = b)) as [->|Hne].
    + exists i1. rewrite list_lookup_insert_eq by done.
      assert (j = i) as -> by congruence. split; [done|]. split; congruence.
    + exists j. by rewrite list_lookup_insert_ne.
  - intros b j Hb Hsj. apply list_lookup_insert_Some in Hb.
    destruct Hb as [(-> & <- & _)|(Hne & Hb)].
    + rewrite Hk. apply (wf_live s Hwf); congruence.
    + by apply (wf_live s Hwf).
  - intros b j Hb. apply list_lookup_insert_Some in Hb.
    destruct Hb as [(-> & <- & _)|(Hne & Hb)].
    + pose proof (wf_chan s Hwf _ _ Ha) as Hok. unfold monitor_ok in *.
      by rewrite Hs, Hc.
    + by apply (wf_chan s Hwf b).
Qed.

Lemma wf_alloc s (k : ObjectKey) i :
  wf s -> monitors s !! k = None ->
  key i = k -> stopped i = false -> stopCh i = ChanOpen ->
  wf {| objects := objects s ++ [i];
        monitors := <[k := length (objects s)]> (monitors s) |}.
Proof.
  intros Hwf Hnone Hk Hs Hc. split; simpl.
  - intros k' b Hb. apply lookup_insert_Some in Hb.
    destruct Hb as [(<- & <-)|(Hne & Hb)].
    + exists i. by rewrite list_lookup_middle.
    + destruct (wf_mapped s Hwf k' b Hb) as (j & Hj & Hkj & Hsj).
      exists j. rewrite lookup_app_l by by eapply lookup_lt_Some. done.
  - intros b j Hb Hsj. apply lookup_snoc_Some in Hb.
    destruct Hb as [(Hlt & Hb)|(-> & <-)].
    + pose proof (wf_live s Hwf b j Hb Hsj) as Hm.
      rewrite lookup_insert_ne; [done|]. intros Heq. congruence.
    + rewrite Hk. apply lookup_insert_eq.
  - intros b j Hb. apply lookup_snoc_Some in Hb.
    destruct Hb as [(Hlt & Hb)|(-> & <-)].
    + by apply (wf_chan s Hwf b).
    + unfold monitor_ok. rewrite Hs, Hc. split; discriminate.
Qed.

Lemma wf_evict s (k : ObjectKey) (a : nat) i2 :
  wf s -> monitors s !! k = Some a ->
  stopped i2 = true -> stopCh i2 = ChanClosed ->
  wf {| objects := <[a := i2]> (objects s); monitors := delete k (monitors s) |}.
Proof.
  intros Hwf Hka Hs Hc.
  destruct (wf_mapped s Hwf k a Hka) as (i & Ha & Hki & Hsi).
  split; simpl.
  - intros k' b Hb. apply lookup_delete_Some in Hb. destruct Hb as (Hne & Hb).
    destruct (wf_mapped s Hwf k' b Hb) as (j & Hj & Hkj & Hsj).
    exists j. rewrite list_lookup_insert_ne; [done|].
    intros Heq. congruence.
  - intros b j Hb Hsj. apply list_lookup_insert_Some in Hb.
    destruct Hb as [(-> & <- & _)|(Hne & Hb)]; [congruence|].
    pose proof (wf_live s Hwf b j Hb Hsj) as Hm.
    rewrite lookup_delete_ne; [done|]. intros Heq. congruence.
  - intros b j Hb. apply list_lookup_insert_Some in Hb.
    destruct Hb as [(-> & <- & _)|(Hne & Hb)].
    + unfold monitor_ok. by rewrite Hs, Hc.
    + by apply (wf_chan s Hwf b).
Qed.

(** ** What each call does to a well-formed state *)

Lemma addSecretEventHandler_reuse (namespace secretName : string) handler
    (fn : option Informer) s (a : nat) i :
  monitors s !! NewObjectKey namespace secretName = Some a ->
  objects s !! a = Some i ->
  addSecretEventHandler namespace secretName handler fn s =
    (Ret (AddEventHandler handler i).1,
     set_object a (AddEventHandler handler i).2 s).
Proof.
  intros Hk Ha. unfold addSecretEventHandler. rewrite Hk, Ha.
  by destruct (AddEventHandler handler i).
Qed.

Lemma addSecretEventHandler_create (namespace secretName : string) handler
    (fn : option Informer) s :
  let k := NewObjectKey namespace secretName in
  let i := newSingleItemMonitor k
             (match fn with
              | None => NewSharedInformer namespace secretName
              | Some f => f
              end) in
  monitors s !! k = None ->
  addSecretEventHandler namespace secretName handler fn s =
    (Ret (AddEventHandler handler i).1,
     {| objects := objects s ++ [(AddEventHandler handler i).2];
        monitors := <[k := length (objects s)]> (monitors s) |}).
Proof.
  intros k i Hk. unfold addSecretEventHandler. fold k. rewrite Hk.
  cbn [objects monitors]. rewrite list_lookup_middle by done. fold i.
  destruct (AddEventHandler handler i) as [r i1]. unfold set_object.
  cbn [objects monitors fst snd].
  rewrite insert_app_r_alt by done. by rewrite Nat.sub_diag.
Qed.

Lemma RemoveEventHandler_some reg i :
  exists i1,
    key i1 = key i /\ stopped i1 = stopped i /\ stopCh i1 = stopCh i /\
    ((exists err, RemoveEventHandler (Some reg) i = (Ret (Some err), i1) /\
        numHandlers i1 = numHandlers i) \/
     (RemoveEventHandler (Some reg) i = (Ret None, i1) /\
        stopped i = false /\
        numHandlers i1 = int32_Add (numHandlers i) (-1))).
Proof.
  unfold RemoveEventHandler. destruct (stopped i) eqn:Hs; simpl.
  - exists i. rewrite Hs. do 3 (split; [done|]). left. by eexists.
  - destruct (informer_RemoveEventHandler _ (informer i)) as [[e|] inf].
    + exists (set_informer inf i). do 3 (split; [done|]). left. by eexists.
    + exists (set_numHandlers (int32_Add (numHandlers i) (-1)) (set_informer inf i)).
      do 3 (split; [done|]). by right.
Qed.

Lemma wf_addSecretEventHandler (namespace secretName : string) handler
    (fn : option Informer) s :
  wf s ->
  returns (addSecretEventHandler namespace secretName handler fn s).1 /\
  wf (addSecretEventHandler namespace secretName handler fn s).2.
Proof.
  intros Hwf.
  destruct (monitors s !! NewObjectKey namespace secretName) as [a|] eqn:Hk.
  - destruct (wf_mapped s Hwf _ _ Hk) as (i & Ha & Hki & Hsi).
    rewrite (addSecretEventHandler_reuse _ _ _ _ _ _ _ Hk Ha). simpl.
    split; [done|].
    destruct (AddEventHandler_fields handler i) as (? & ? & ?).
    by eapply wf_update.
  - rewrite (addSecretEventHandler_create _ _ _ _ _ Hk). simpl.
    split; [done|].
    match goal with |- context [AddEventHandler handler ?j] =>
      destruct (AddEventHandler_fields handler j) as (Hf1 & Hf2 & Hf3) end.
    apply wf_alloc; try done.
Qed.

Lemma wf_RemoveSecretEventHandler (h : @SecretEventHandlerRegistration Token) s :
  wf s ->
  returns (RemoveSecretEventHandler h s).1 /\
  wf (RemoveSecretEventHandler h s).2.
Proof.
  intros Hwf. destruct h as [reg|]; [|done].
  unfold RemoveSecretEventHandler.
  destruct (monitors s !! objectKey reg) as [a|] eqn:Hk; [|done].
  destruct (wf_mapped s Hwf _ _ Hk) as (i & Ha & Hki & Hsi). rewrite Ha.
  destruct (RemoveEventHandler_some reg i)
    as (i1 & Hf1 & Hf2 & Hf3 & [(err & -> & _)|(-> & _ & _)]).
  - simpl. split; [done|]. by eapply wf_update.
  - destruct (numHandlers _ <=? 0)%Z.
    + rewrite StopInformer_running.
      * simpl. split; [done|]. by eapply wf_evict.
      * pose proof (wf_chan s Hwf _ _ Ha) as Hok. unfold monitor_ok in *.
        by rewrite Hf2, Hf3.
      * congruence.
    + simpl. split; [done|]. by eapply wf_update.
Qed.

Lemma wf_GetSecret (h : @SecretEventHandlerRegistration Token) s :
  wf s -> returns (GetSecret h s).
Proof.
  intros Hwf. destruct h as [reg|]; [|done].
  unfold GetSecret.
  destruct (monitors s !! objectKey reg) as [a|] eqn:Hk; [|done].
  destruct (wf_mapped s Hwf _ _ Hk) as (i & Ha & _). rewrite Ha.
  destruct (GetItem i) as [[uncast ex] [e|]]; destruct ex; simpl; try done.
  by destruct uncast.
Qed.

Lemma wf_exec (c : @call Handler Token Informer) s :
  wf s -> returns (exec c s).1 /\ wf (exec c s).2.
Proof.
  intros Hwf. destruct c as [ns name h fn|h|h|m inf]; simpl.
  - destruct (wf_addSecretEventHandler ns name h fn s Hwf) as [Hr Hw].
    destruct (addSecretEventHandler ns name h fn s) as [[r|] s1]; done.
  - destruct (wf_RemoveSecretEventHandler h s Hwf) as [Hr Hw].
    destruct (RemoveSecretEventHandler h s) as [[r|] s1]; done.
  - pose proof (wf_GetSecret h s Hwf) as Hr.
    destruct (GetSecret h s); done.
  - destruct (objects s !! m) as [i|] eqn:Hm; simpl; [|done].
    split; [done|]. by eapply wf_update.
Qed.

Lemma wf_run (cs : list (@call Handler Token Informer)) s :
  wf s -> wf (run cs s).
Proof.
  revert s. induction cs as [|c cs IH]; intros s Hwf; [done|].
  simpl. apply IH. by apply wf_exec.
Qed.

(** When the informer refuses the first handler of an identity, the
    monitor created for it stays in the map, running, with no listener. *)
Lemma addSecretEventHandler_refused (namespace secretName : string) handler s
    (err : error) (inf : Informer) :
  monitors s !! NewObjectKey namespace secretName = None ->
  informer_AddEventHandler handler (NewSharedInformer namespace secretName)
    = (Err err, inf) ->
  let s1 := (AddSecretEventHandler namespace secretName handler s).2 in
  (AddSecretEventHandler namespace secretName handler s).1 = Ret (Err err) /\
  monitors s1 !! NewObjectKey namespace secretName = Some (length (objects s)) /\
  exists i, objects s1 !! length (objects s) = Some i /\
    numHandlers i = 0%Z /\ stopped i = false.
Proof.
  intros Hk Hadd. unfold AddSecretEventHandler.
  rewrite (addSecretEventHandler_create _ _ _ _ _ Hk).
  unfold AddEventHandler. cbn [stopped informer newSingleItemMonitor].
  rewrite Hadd. cbn [fst snd objects monitors].
  split; [done|]. split; [apply lookup_insert_eq|].
  eexists. split; [by apply list_lookup_middle|]. done.
Qed.

(** X14. Whatever the informer does, in every state reached from the
    empty monitor by calls of [AddSecretEventHandler] or its test entry
    point, [RemoveSecretEventHandler] and [GetSecret], interleaved at will
    with steps of the informers: a key in the map points to a monitor of
    that key that has not been stopped; every monitor that has not been
    stopped, whatever its counter, is the one the map holds for its key;
    and so no two running monitors share a key. *)
Theorem monitors_membership_invariant (cs : list (@call Handler Token Informer)) :
  let s := run cs NewSecretMonitor in
  (forall k a, monitors s !! k = Some a ->
     exists i, objects s !! a = Some i /\ key i = k /\ stopped i = false) /\
  (forall a i, objects s !! a = Some i -> stopped i = false ->
     monitors s !! key i = Some a) /\
  (forall a b i j, objects s !! a = Some i -> objects s !! b = Some j ->
     stopped i = false -> stopped j = false -> key i = key j -> a = b).
Proof.
  intros s. assert (Hwf : wf s) by apply wf_run, wf_new.
  split; [apply (wf_mapped s Hwf)|]. split; [apply (wf_live s Hwf)|].
  intros a b i j Ha Hb Hsi Hsj Hk.
  pose proof (wf_live s Hwf a i Ha Hsi) as H1.
  pose proof (wf_live s Hwf b j Hb Hsj) as H2.
  congruence.
Qed.

(** C9, as the code has it.  [GetSecret] returns an error for a nil
    registration, for a key with no monitor, for an object the store does
    not have, for an error the store reports with an entry (returned as
    it is), and for an entry that is not a secret, in this order;
    otherwise it returns the cached secret.  In a well-formed state it
    always returns one of the two. *)
Theorem GetSecret_cases s :
  GetSecret None s = Ret (Err ErrNilRegistration) /\
  (forall reg, monitors s !! objectKey reg = None ->
     GetSecret (Some reg) s = Ret (Err (ErrNoMonitor (objectKey reg)))) /\
  (forall reg (a : nat) i (uncast : item Secret) (found : bool) (err : option error),
     monitors s !! objectKey reg = Some a ->
     objects s !! a = Some i ->
     GetItem i = (uncast, found, err) ->
     (found = false ->
        GetSecret (Some reg) s = Ret (Err (ErrNotInCache (Name (objectKey reg))))) /\
     (found = true -> forall e, err = Some e ->
        GetSecret (Some reg) s = Ret (Err e)) /\
     (found = true -> err = None -> (forall x, uncast <> ItemSecret x) ->
        GetSecret (Some reg) s = Ret (Err ErrUnexpectedType)) /\
     (found = true -> err = None -> forall x, uncast = ItemSecret x ->
        GetSecret (Some reg) s = Ret (Ok x))) /\
  (wf s -> forall h, exists r, GetSecret h s = Ret r).
Proof.
  split; [reflexivity|]. split; [|split].
  - intros reg Hk. unfold GetSecret. by rewrite Hk.
  - intros reg a i uncast found err Hk Ha Hget.
    unfold GetSecret. rewrite Hk, Ha, Hget.
    repeat split.
    + by intros ->.
    + by intros -> e ->.
    + intros -> -> Hne. simpl. destruct uncast; try done. by destruct (Hne s0).
    + by intros -> -> x ->.
  - intros Hwf h. pose proof (wf_GetSecret h s Hwf) as Hr.
    destruct (GetSecret h s) as [r|]; [by exists r|done].
Qed.

(** ** The listener counter *)

Lemma AddEventHandler_counter handler i :
  numHandlers (AddEventHandler handler i).2 = numHandlers i \/
  numHandlers (AddEventHandler handler i).2 = int32_Add (numHandlers i) 1.
Proof.
  unfold AddEventHandler. destruct (stopped i); [by left|].
  destruct (informer_AddEventHandler handler (informer i)) as [[t|e] inf];
    simpl; auto.
Qed.

Lemma within_weaken (n m : Z) s :
  (n <= m)%Z -> counters_within n s -> counters_within m s.
Proof. intros Hnm Hw k a i Hk Ha. specialize (Hw k a i Hk Ha). lia. Qed.

Lemma within_update (n : Z) s (a : nat) i1 :
  counters_within n s -> (0 <= numHandlers i1 <= n)%Z ->
  counters_within n (set_object a i1 s).
Proof.
  intros Hw Hb k b j Hk Hj. simpl in *.
  apply list_lookup_insert_Some in Hj.
  destruct Hj as [(-> & <- & _)|(Hne & Hj)]; [done|].
  by apply (Hw k b j).
Qed.

Lemma within_same (n : Z) s (a : nat) i i1 :
  counters_within n s -> objects s !! a = Some i ->
  numHandlers i1 = numHandlers i ->
  counters_within n (set_object a i1 s).
Proof.
  intros Hw Ha Hc k b j Hk Hj. simpl in *.
  apply list_lookup_insert_Some in Hj.
  destruct Hj as [(-> & <- & _)|(Hne & Hj)]; [|by apply (Hw k b j)].
  rewrite Hc. by apply (Hw k b i).
Qed.

Lemma within_alloc (n : Z) s (k : ObjectKey) i1 :
  wf s -> counters_within n s -> (0 <= numHandlers i1 <= n)%Z ->
  counters_within n {| objects := objects s ++ [i1];
                       monitors := <[k := length (objects s)]> (monitors s) |}.
Proof.
  intros Hwf Hw Hb k' b j Hk Hj. simpl in *.
  apply lookup_insert_Some in Hk. apply lookup_snoc_Some in Hj.
  destruct Hj as [(Hlt & Hj)|(-> & <-)]; [|done].
  destruct Hk as [(<- & <-)|(Hne & Hk)]; [lia|].
  by apply (Hw k' b j).
Qed.

Lemma within_evict (n : Z) s (k : ObjectKey) (a : nat) i2 :
  wf s -> counters_within n s -> monitors s !! k = Some a ->
  counters_within n {| objects := <[a := i2]> (objects s);
                       monitors := delete k (monitors s) |}.
Proof.
  intros Hwf Hw Hka k' b j Hk Hj. simpl in *.
  apply lookup_delete_Some in Hk. destruct Hk as (Hne & Hk).
  apply list_lookup_insert_Some in Hj.
  destruct Hj as [(<- & <- & _)|(Hnb & Hj)]; [|by apply (Hw k' b j)].
  destruct (wf_mapped s Hwf k a Hka) as (x & Hx & Hkx & _).
  destruct (wf_mapped s Hwf k' a Hk) as (y & Hy & Hky & _).
  congruence.
Qed.

Lemma within_exec (c : @call Handler Token Informer) s (n : Z) :
  wf s -> counters_within n s -> (0 <= n < int32_max)%Z ->
  counters_within (n + 1) (exec c s).2.
Proof.
  intros Hwf Hw Hn.
  assert (Hw1 : counters_within (n + 1) s) by (eapply within_weaken; [|done]; lia).
  unfold int32_max in Hn.
  destruct c as [ns name h fn|[reg|]|h|m inf]; simpl; try done.
  - destruct (monitors s !! NewObjectKey ns name) as [a|] eqn:Hk.
    + destruct (wf_mapped s Hwf _ _ Hk) as (i & Ha & _).
      rewrite (addSecretEventHandler_reuse _ _ _ _ _ _ _ Hk Ha). simpl.
      apply within_update; [done|].
      specialize (Hw _ _ _ Hk Ha).
      destruct (AddEventHandler_counter h i) as [->| ->]; [lia|].
      rewrite int32_Add_small; unfold int32_min, int32_max; lia.
    + rewrite (addSecretEventHandler_create _ _ _ _ _ Hk). simpl.
      apply within_alloc; [done..|].
      match goal with |- context [AddEventHandler h ?j] =>
        destruct (AddEventHandler_counter h j) as [->| ->] end; simpl; [lia|].
      rewrite int32_Add_small; unfold int32_min, int32_max; lia.
  - unfold RemoveSecretEventHandler.
    destruct (monitors s !! objectKey reg) as [a|] eqn:Hk; [|done].
    destruct (wf_mapped s Hwf _ _ Hk) as (i & Ha & _ & Hrun). rewrite Ha.
    specialize (Hw _ _ _ Hk Ha).
    destruct (RemoveEventHandler_some reg i)
      as (i1 & Hf1 & Hf2 & Hf3 & [(err & -> & Hc)|(-> & _ & Hc)]).
    + simpl. apply within_update; [done|]. rewrite Hc. lia.
    + rewrite int32_Add_small in Hc by (unfold int32_min, int32_max; lia).
      destruct (numHandlers _ <=? 0)%Z eqn:Hle.
      * rewrite StopInformer_running.
        -- simpl. by apply within_evict.
        -- pose proof (wf_chan s Hwf _ _ Ha) as Hok. unfold monitor_ok in *.
           by rewrite Hf2, Hf3.
        -- congruence.
      * simpl. apply Z.leb_gt in Hle. apply within_update; [done|]. lia.
  - destruct (objects s !! m) as [i|] eqn:Hm; simpl; [|done].
    by eapply within_same.
Qed.

Lemma within_run (cs : list (@call Handler Token Informer)) s (n : Z) :
  wf s -> counters_within n s ->
  (0 <= n)%Z -> (n + Z.of_nat (length cs) <= int32_max)%Z ->
  counters_within (n + Z.of_nat (length cs)) (run cs s).
Proof.
  revert s n. induction cs as [|c cs IH]; intros s n Hwf Hw Hn Hlen.
  - simpl. by rewrite Z.add_0_r.
  - change (run (c :: cs) s) with (run cs (exec c s).2).
    cbn [length] in *. unfold int32_max in *.
    replace (n + Z.of_nat (S (length cs)))%Z
      with ((n + 1) + Z.of_nat (length cs))%Z by lia.
    apply IH; [by apply wf_exec| |lia|unfold int32_max; lia].
    apply within_exec; [done..|unfold int32_max; lia].
Qed.

(** C7, as the code has it.  [RemoveEventHandler] has no floor of its
    own: on a running monitor, whenever the informer accepts the removal
    the counter is decremented (an [int32] addition of -1), whatever its
    value, and whenever the call does not return nil the counter is
    unchanged.  In the [secretMonitor], in every state reached from the
    empty one by fewer than 2^31 calls, the counter of every mapped
    monitor is at least 0. *)
Theorem numHandlers_accounting :
  (forall reg i,
     (forall inf, stopped i = false ->
        informer_RemoveEventHandler (ResourceEventHandlerRegistration reg) (informer i)
          = (None, inf) ->
        (RemoveEventHandler (Some reg) i).1 = Ret None /\
        numHandlers (RemoveEventHandler (Some reg) i).2
          = int32_Add (numHandlers i) (-1)) /\
     ((RemoveEventHandler (Some reg) i).1 <> Ret None ->
        numHandlers (RemoveEventHandler (Some reg) i).2 = numHandlers i)) /\
  (forall cs : list (@call Handler Token Informer),
     (Z.of_nat (length cs) < 2 ^ 31)%Z ->
     forall k a i,
       monitors (run cs NewSecretMonitor) !! k = Some a ->
       objects (run cs NewSecretMonitor) !! a = Some i ->
       (0 <= numHandlers i)%Z).
Proof.
  split.
  - intros reg i. split.
    + intros inf Hs Hrm. unfold RemoveEventHandler. rewrite Hs. simpl.
      by rewrite Hrm.
    + intros Hne.
      destruct (RemoveEventHandler_some reg i)
        as (i1 & _ & _ & _ & [(err & Heq & Hc)|(Heq & _)]);
        rewrite Heq in *; done.
  - intros cs Hlen k a i Hk Ha.
    assert (Hw : counters_within (0 + Z.of_nat (length cs)) (run cs NewSecretMonitor)).
    { apply within_run; [apply wf_new| |lia|unfold int32_max; lia].
      intros k' a' i' Hk'. simpl in Hk'. by rewrite lookup_empty in Hk'. }
    specialize (Hw k a i Hk Ha). lia.
Qed.


(** ** One identity, one monitor *)

Lemma AddEventHandler_cases handler i :
  exists i1,
    key i1 = key i /\ stopped i1 = stopped i /\ stopCh i1 = stopCh i /\
    ((exists err, AddEventHandler handler i = (Err err, i1) /\
        numHandlers i1 = numHandlers i) \/
     (exists t, AddEventHandler handler i =
        (Ok {| ResourceEventHandlerRegistration := t; objectKey := key i |}, i1) /\
        numHandlers i1 = int32_Add (numHandlers i) 1)).
Proof.
  unfold AddEventHandler. destruct (stopped i) eqn:Hs.
  - exists i. rewrite Hs. do 3 (split; [done|]). left. by eexists.
  - destruct (informer_AddEventHandler handler (informer i)) as [[t|e] inf].
    + exists (set_numHandlers (int32_Add (numHandlers i) 1) (set_informer inf i)).
      do 3 (split; [done|]). right. by exists t.
    + exists (set_informer inf i). do 3 (split; [done|]). left. by eexists.
Qed.

Lemma count_ok_cons (f : outcome (@reply Token Secret) * @secretMonitor Informer -> bool)
    x t :
  count_ok f (x :: t) = ((if f x then 1 else 0) + count_ok f t)%Z.
Proof.
  unfold count_ok. rewrite filter_cons.
  destruct (decide (f x = true)) as [->|Hne].
  - cbn [length]. lia.
  - destruct (f x); [done|]. lia.
Qed.

Lemma count_ok_bounds (f : outcome (@reply Token Secret) * @secretMonitor Informer -> bool)
    t :
  (0 <= count_ok f t <= Z.of_nat (length t))%Z.
Proof.
  unfold count_ok. pose proof (length_filter (fun x => f x = true) t). lia.
Qed.

Lemma trace_length (cs : list (@call Handler Token Informer)) s :
  length (trace cs s) = length cs.
Proof.
  revert s. induction cs as [|c cs IH]; intros s; [done|].
  simpl. destruct (exec c s) as [o s1]. simpl. by rewrite IH.
Qed.

Lemma trace_cons (c : @call Handler Token Informer) cs s :
  trace (c :: cs) s = exec c s :: trace cs (exec c s).2.
Proof. simpl. by destruct (exec c s). Qed.

Lemma RemoveSecretEventHandler_mapped reg s (a : nat) i :
  monitors s !! objectKey reg = Some a -> objects s !! a = Some i ->
  stopped i = false -> stopCh i = ChanOpen ->
  exists i1,
    key i1 = key i /\ stopped i1 = false /\ stopCh i1 = ChanOpen /\
    ((exists err,
        RemoveSecretEventHandler (Some reg) s = (Ret (Some err), set_object a i1 s) /\
        numHandlers i1 = numHandlers i) \/
     (RemoveSecretEventHandler (Some reg) s = (Ret None, set_object a i1 s) /\
        numHandlers i1 = int32_Add (numHandlers i) (-1) /\
        (0 < numHandlers i1)%Z) \/
     (RemoveSecretEventHandler (Some reg) s =
        (Ret None,
         {| objects := <[a := set_stopCh ChanClosed (set_stopped true i1)]> (objects s);
            monitors := delete (objectKey reg) (monitors s) |}) /\
        numHandlers i1 = int32_Add (numHandlers i) (-1) /\
        (numHandlers i1 <= 0)%Z)).
Proof.
  intros Hk Ha Hrun Hch. unfold RemoveSecretEventHandler. rewrite Hk, Ha.
  destruct (RemoveEventHandler_some reg i)
    as (i1 & Hf1 & Hf2 & Hf3 & [(err & -> & Hc)|(-> & _ & Hc)]);
    exists i1; (do 3 (split; [congruence|])).
  - left. by exists err.
  - right. destruct (numHandlers i1 <=? 0)%Z eqn:Hle.
    + right. apply Z.leb_le in Hle.
      rewrite StopInformer_running; [done| |congruence].
      unfold monitor_ok. rewrite Hf2, Hf3, Hrun, Hch. split; discriminate.
    + left. apply Z.leb_gt in Hle. done.
Qed.

(** One call on the identity of a mapped, running monitor that leaves
    the identity mapped. *)
Lemma exec_reuse (k : ObjectKey) (c : @call Handler Token Informer) s (a : nat) i :
  monitors s !! k = Some a -> objects s !! a = Some i ->
  key i = k -> stopped i = false -> stopCh i = ChanOpen ->
  (int32_min <= numHandlers i <= int32_max)%Z ->
  targets k c ->
  is_Some (monitors (exec c s).2 !! k) ->
  exists i1,
    length (objects (exec c s).2) = length (objects s) /\
    monitors (exec c s).2 !! k = Some a /\
    objects (exec c s).2 !! a = Some i1 /\
    key i1 = k /\ stopped i1 = false /\ stopCh i1 = ChanOpen /\
    (int32_min <= numHandlers i1 <= int32_max)%Z /\
    numHandlers i1 =
      wrap32 (numHandlers i + (if is_add_ok (exec c s) then 1 else 0)
                            - (if is_remove_ok (exec c s) then 1 else 0)) /\
    (forall r, (exec c s).1 = Ret (ReplyAdd (Ok r)) -> objectKey r = k).
Proof.
  intros Hk Ha Hki Hrun Hch Hrange Ht Hstay.
  pose proof (lookup_lt_Some _ _ _ Ha) as Hlt.
  assert (Hsame : numHandlers i = wrap32 (numHandlers i + 0 - 0)).
  { replace (numHandlers i + 0 - 0)%Z with (numHandlers i) by lia.
    symmetry. by apply wrap32_id. }
  destruct c as [ns name h fn|[reg|]|h|m inf]; simpl in Ht.
  - rewrite <- Ht in Hk. simpl.
    rewrite (addSecretEventHandler_reuse _ _ _ _ _ _ _ Hk Ha). rewrite Ht in Hk.
    destruct (AddEventHandler_cases h i)
      as (i1 & Hf1 & Hf2 & Hf3 & [(err & Heq & Hc)|(t & Heq & Hc)]);
      rewrite Heq; simpl; exists i1;
      rewrite length_insert, list_lookup_insert_eq by done;
      (do 6 (split; [congruence|])).
    + unfold is_add_ok, is_remove_ok. simpl. rewrite Hc.
      split; [done|]. split; [done|]. intros r [=].
    + unfold is_add_ok, is_remove_ok. simpl. rewrite Hc. unfold int32_Add.
      split; [apply wrap32_range|]. split; [f_equal; lia|].
      intros r [= <-]. simpl. done.
  - rewrite <- Ht in Hk.
    destruct (RemoveSecretEventHandler_mapped reg s a i Hk Ha Hrun Hch)
      as (i1 & Hf1 & Hf2 & Hf3 &
          [(err & Heq & Hc)|[(Heq & Hc & Hpos)|(Heq & Hc & Hle)]]);
      unfold exec in Hstay |- *; rewrite Heq in Hstay |- *; rewrite Ht in *.
    + simpl. exists i1. rewrite length_insert, list_lookup_insert_eq by done.
      do 6 (split; [congruence|]).
      unfold is_add_ok, is_remove_ok. simpl. rewrite Hc.
      split; [done|]. split; [done|]. intros r [=].
    + simpl. exists i1. rewrite length_insert, list_lookup_insert_eq by done.
      do 6 (split; [congruence|]).
      unfold is_add_ok, is_remove_ok. simpl. rewrite Hc. unfold int32_Add.
      split; [apply wrap32_range|]. split; [f_equal; lia|]. intros r [=].
    + exfalso. simpl in Hstay. rewrite lookup_delete_eq in Hstay.
      by destruct Hstay.
  - simpl. exists i. do 6 (split; [done|]).
    unfold is_add_ok, is_remove_ok. simpl.
    split; [done|]. split; [done|]. intros r [=].
  - simpl. exists i. do 6 (split; [done|]).
    unfold is_add_ok, is_remove_ok. simpl.
    destruct (GetSecret h s) as [r0|]; simpl;
      (split; [done|]); (split; [done|]); intros r [=].
  - simpl. destruct (objects s !! m) as [j|] eqn:Hm; simpl.
    + destruct (decide (m = a)) as [->|Hne].
      * assert (j = i) as -> by congruence.
        exists (set_informer inf i).
        rewrite length_insert, list_lookup_insert_eq by done.
        do 6 (split; [done|]).
        unfold is_add_ok, is_remove_ok. simpl.
        split; [done|]. split; [done|]. intros r [=].
      * exists i. rewrite length_insert, list_lookup_insert_ne by done.
        do 6 (split; [done|]).
        unfold is_add_ok, is_remove_ok. simpl.
        split; [done|]. split; [done|]. intros r [=].
    + exists i. do 6 (split; [done|]).
      unfold is_add_ok, is_remove_ok. simpl.
      split; [done|]. split; [done|]. intros r [=].
Qed.

Lemma trace_reuse (k : ObjectKey) (cs : list (@call Handler Token Informer)) :
  forall s (a : nat) i,
  monitors s !! k = Some a -> objects s !! a = Some i ->
  key i = k -> stopped i = false -> stopCh i = ChanOpen ->
  (int32_min <= numHandlers i <= int32_max)%Z ->
  Forall (targets k) cs ->
  Forall (fun x => is_Some (monitors x.2 !! k)) (trace cs s) ->
  Forall (fun x => length (objects x.2) = length (objects s) /\
                   monitors x.2 !! k = Some a) (trace cs s) /\
  Forall (fun x => forall r, x.1 = Ret (ReplyAdd (Ok r)) -> objectKey r = k)
         (trace cs s) /\
  exists i', objects (run cs s) !! a = Some i' /\ key i' = k /\
    numHandlers i' =
      wrap32 (numHandlers i + count_ok is_add_ok (trace cs s)
                            - count_ok is_remove_ok (trace cs s)).
Proof.
  induction cs as [|c cs IH]; intros s a i Hk Ha Hki Hrun Hch Hrange Ht Hstay.
  - simpl. do 2 (split; [constructor|]). exists i. do 2 (split; [done|]).
    rewrite <- (wrap32_id (numHandlers i)) at 1 by done.
    f_equal. unfold count_ok. simpl. lia.
  - rewrite trace_cons in *. change (run (c :: cs) s) with (run cs (exec c s).2).
    apply Forall_cons in Ht. destruct Ht as [Htc Ht].
    apply Forall_cons in Hstay. destruct Hstay as [Hsc Hstay].
    destruct (exec_reuse k c s a i Hk Ha Hki Hrun Hch Hrange Htc Hsc)
      as (i1 & Hlen & Hk1 & Ha1 & Hki1 & Hrun1 & Hch1 & Hrange1 & Hcnt & Hreg).
    destruct (IH _ a i1 Hk1 Ha1 Hki1 Hrun1 Hch1 Hrange1 Ht Hstay)
      as (IH1 & IH2 & i' & Ha' & Hki' & Hcnt').
    split; [|split].
    + apply Forall_cons. split; [done|].
      eapply Forall_impl; [exact IH1|]. intros x [Hx1 Hx2]. split; congruence.
    + apply Forall_cons. by split.
    + exists i'. do 2 (split; [done|]).
      rewrite Hcnt', Hcnt, !count_ok_cons.
      match goal with |- wrap32 (wrap32 ?x + ?A - ?R) = _ =>
        replace (wrap32 x + A - R)%Z with (wrap32 x + (A - R))%Z by lia end.
      rewrite wrap32_add_l. f_equal. lia.
Qed.

(** C2.  Starting where the identity has no monitor, take any non-empty
    sequence of calls on that identity during which the monitor is never
    torn down (after each call the identity is mapped).  Then one monitor
    and no more is allocated: after each call there is exactly one more
    object than at the start and the identity maps to it.  Every
    registration returned by a successful add carries the identity as its
    key.  The monitor's counter is the number of successful adds minus the
    number of successful removes, as an [int32], which is that very
    number for fewer than 2^31 calls. *)
Theorem one_monitor_per_identity (namespace secretName : string)
    (cs : list (@call Handler Token Informer)) s :
  let k := NewObjectKey namespace secretName in
  let a := length (objects s) in
  let t := trace cs s in
  monitors s !! k = None ->
  cs <> [] ->
  Forall (targets k) cs ->
  Forall (fun x => is_Some (monitors x.2 !! k)) t ->
  Forall (fun x => length (objects x.2) = S a /\ monitors x.2 !! k = Some a) t /\
  Forall (fun x => forall r, x.1 = Ret (ReplyAdd (Ok r)) -> GetKey (Some r) = Ret k) t /\
  exists i, objects (run cs s) !! a = Some i /\ key i = k /\
    numHandlers i = wrap32 (count_ok is_add_ok t - count_ok is_remove_ok t) /\
    ((Z.of_nat (length cs) < 2 ^ 31)%Z ->
       numHandlers i = (count_ok is_add_ok t - count_ok is_remove_ok t)%Z).
Proof.
  intros k a t Hnone Hne Ht Hstay. subst t.
  destruct cs as [|c cs]; [done|]. clear Hne.
  assert (Hlen : length (trace (c :: cs) s) = length (c :: cs))
    by apply trace_length.
  rewrite trace_cons in *. change (run (c :: cs) s) with (run cs (exec c s).2).
  apply Forall_cons in Ht. destruct Ht as [Htc Ht].
  apply Forall_cons in Hstay. destruct Hstay as [Hsc Hstay].
  assert (Hfirst : exists handler fn, c = CallAdd namespace secretName handler fn).
  { destruct c as [ns name h fn|[reg|]|h|m inf]; simpl in Htc, Hsc.
    - injection Htc as -> ->. by exists h, fn.
    - exfalso. unfold RemoveSecretEventHandler in Hsc. rewrite Htc, Hnone in Hsc.
      simpl in Hsc. rewrite Hnone in Hsc. by destruct Hsc.
    - exfalso. rewrite Hnone in Hsc. by destruct Hsc.
    - exfalso. rewrite Hnone in Hsc. by destruct Hsc.
    - exfalso. destruct (objects s !! m); simpl in Hsc;
        rewrite Hnone in Hsc; by destruct Hsc. }
  destruct Hfirst as (handler & fn & ->).
  assert (Hex : exec (CallAdd namespace secretName handler fn) s =
    let i0 := newSingleItemMonitor k
                (match fn with
                 | None => NewSharedInformer namespace secretName
                 | Some f => f
                 end) in
    (Ret (ReplyAdd (AddEventHandler handler i0).1),
     {| objects := objects s ++ [(AddEventHandler handler i0).2];
        monitors := <[k := a]> (monitors s) |})).
  { simpl. by rewrite (addSecretEventHandler_create _ _ _ _ _ Hnone). }
  cbv zeta in Hex. rewrite Hex in *. clear Hex.
  match type of Hstay with context [AddEventHandler handler ?j] => set (i0 := j) in * end.
  destruct (AddEventHandler_cases handler i0)
    as (i1 & Hf1 & Hf2 & Hf3 & Hcases).
  assert (Hi1 : (AddEventHandler handler i0).2 = i1)
    by (destruct Hcases as [(? & -> & _)|(? & -> & _)]; done).
  rewrite Hi1 in *. cbn [fst snd objects monitors] in *.
  match type of Hstay with context [trace cs ?st] => set (s1 := st) in * end.
  match goal with |- context [?x :: trace cs s1] => set (x1 := x) in * end.
  assert (Hrm1 : is_remove_ok x1 = false) by reflexivity.
  assert (Hcnt1 : (int32_min <= numHandlers i1 <= int32_max)%Z /\
     numHandlers i1 = (if is_add_ok x1 then 1 else 0)%Z /\
     (forall r, x1.1 = Ret (ReplyAdd (Ok r)) -> objectKey r = k)).
  { subst x1. unfold is_add_ok. cbn [fst].
    destruct Hcases as [(err & Heq & Hc)|(tk & Heq & Hc)]; rewrite Heq, Hc;
      unfold int32_min, int32_max; simpl.
    - split; [lia|]. split; [done|]. intros r [=].
    - split; [vm_compute; split; discriminate|]. split; [done|].
      by intros r [= <-]. }
  destruct Hcnt1 as (Hrange1 & Hcnt1 & Hreg1).
  assert (P1 : monitors s1 !! k = Some a) by (simpl; apply lookup_insert_eq).
  assert (P2 : objects s1 !! a = Some i1) by (simpl; by apply list_lookup_middle).
  assert (P3 : key i1 = k) by (by rewrite Hf1).
  assert (P4 : stopped i1 = false) by (by rewrite Hf2).
  assert (P5 : stopCh i1 = ChanOpen) by (by rewrite Hf3).
  destruct (trace_reuse k cs s1 a i1 P1 P2 P3 P4 P5 Hrange1 Ht Hstay)
    as (T1 & T2 & i' & Ha' & Hki' & Hcnt').
  assert (Hlen1 : length (objects s1) = S a)
    by (simpl; rewrite length_app; simpl; lia).
  rewrite Hlen1 in T1.
  split; [|split].
  - apply Forall_cons. split; [|done].
    split; [done|]. simpl. apply lookup_insert_eq.
  - apply Forall_cons. split.
    + intros r Hr. simpl. f_equal. by apply Hreg1.
    + eapply Forall_impl; [exact T2|]. intros x Hx r Hr. simpl. f_equal.
      by apply Hx.
  - exists i'. do 2 (split; [done|]).
    assert (Heq : numHandlers i' =
       wrap32 (count_ok is_add_ok (x1 :: trace cs s1)
               - count_ok is_remove_ok (x1 :: trace cs s1))).
    { rewrite Hcnt', !count_ok_cons, Hcnt1, Hrm1. f_equal; lia. }
    split; [exact Heq|].
    intros Hshort. rewrite Heq. apply wrap32_id.
    pose proof (count_ok_bounds is_add_ok (x1 :: trace cs s1)).
    pose proof (count_ok_bounds is_remove_ok (x1 :: trace cs s1)).
    cbn [length] in *. rewrite trace_length in *.
    unfold int32_min, int32_max. lia.
Qed.

End Properties.

(** * Further properties of the two types *)

Section Coverage.

Context {Handler Token Secret Informer : Type}.
Context `{!SharedInformer Handler Token Secret Informer}.

Implicit Types (i : @singleItemMonitor Informer) (s : @secretMonitor Informer).
Implicit Types (reg : @secretEventHandlerRegistration Token).
Implicit Types (handler : Handler).

(** ** No panic *)



(** ** One monitor *)

Lemma mexec_frozen (c : @mcall Handler Token) i :
  stopped i = true -> mexec c i = i.
Proof.
  intros Hs. destruct c as [h|[reg|]|]; simpl.
  - unfold AddEventHandler. by rewrite Hs.
  - unfold RemoveEventHandler. by rewrite Hs.
  - unfold RemoveEventHandler. by rewrite Hs.
  - by rewrite StopInformer_stopped.
Qed.

(** X2. A stopped monitor is frozen: whatever is called on it
    afterwards ([AddEventHandler], [RemoveEventHandler] with or without a
    registration, [StopInformer]), no field changes, and its informer is
    not called. *)
Theorem stopped_monitor_is_frozen (cs : list (@mcall Handler Token)) i :
  stopped i = true -> mrun cs i = i.
Proof.
  intros Hs. induction cs as [|c cs IH]; [done|].
  simpl. by rewrite mexec_frozen.
Qed.

(** X3. Adding a handler and then removing it with the registration that
    the add returned leaves the counter where it was (for a counter in
    the [int32] range, its bounds included), on a monitor that is still
    running under the same key. *)
Theorem add_then_remove_restores_counter handler i reg i1 i2 :
  (int32_min <= numHandlers i <= int32_max)%Z ->
  AddEventHandler handler i = (Ok reg, i1) ->
  RemoveEventHandler (Some reg) i1 = (Ret None, i2) ->
  numHandlers i2 = numHandlers i /\ key i2 = key i /\
  stopped i2 = false /\ stopCh i2 = stopCh i.
Proof.
  intros Hrange Hadd Hrm.
  destruct (AddEventHandler_cases handler i)
    as (j1 & Ha1 & Ha2 & Ha3 & [(err & Heq & _)|(t & Heq & Hc1)]);
    rewrite Heq in Hadd; [discriminate|].
  injection Hadd as _ ->.
  destruct (RemoveEventHandler_some reg i1)
    as (j2 & Hb1 & Hb2 & Hb3 & [(err & Heq2 & _)|(Heq2 & Hrun & Hc2)]);
    rewrite Heq2 in Hrm; [discriminate|].
  injection Hrm as ->.
  split; [|split; [congruence|split; congruence]].
  rewrite Hc2, Hc1. unfold int32_Add. rewrite wrap32_add_l.
  replace (numHandlers i + 1 + -1)%Z with (numHandlers i) by lia.
  by apply wrap32_id.
Qed.

(** ** One call on the keyed monitor *)

(** X4. When the monitor's [AddEventHandler] returns an error on a
    monitor that is already in the map, [addSecretEventHandler] returns
    that error; the map is unchanged and the monitor keeps its key, its
    flag, its channel and its counter. *)
Theorem addSecretEventHandler_delegated_failure (namespace secretName : string)
    handler (fn : option Informer) s (a : nat) i i1 (err : error) :
  monitors s !! NewObjectKey namespace secretName = Some a ->
  objects s !! a = Some i ->
  AddEventHandler handler i = (Err err, i1) ->
  exists s1,
    addSecretEventHandler namespace secretName handler fn s = (Ret (Err err), s1) /\
    monitors s1 = monitors s /\
    objects s1 = <[a := i1]> (objects s) /\
    key i1 = key i /\ stopped i1 = stopped i /\ stopCh i1 = stopCh i /\
    numHandlers i1 = numHandlers i.
Proof.
  intros Hk Ha Hadd.
  rewrite (addSecretEventHandler_reuse _ _ _ _ _ _ _ Hk Ha), Hadd.
  eexists. split; [reflexivity|]. simpl.
  destruct (AddEventHandler_cases handler i)
    as (j1 & Ha1 & Ha2 & Ha3 & [(e & Heq & Hc)|(t & Heq & _)]);
    rewrite Heq in Hadd; [|discriminate].
  injection Hadd as _ ->. done.
Qed.

(** X5. Whether it succeeds or fails, [addSecretEventHandler] leaves the
    identity mapped to a running monitor of that identity; and a
    registration it returns carries that identity, so a later
    [RemoveSecretEventHandler] or [GetSecret] with it is directed to that
    monitor. *)
Theorem addSecretEventHandler_maps_key (namespace secretName : string)
    handler (fn : option Informer) s :
  wf s ->
  let k := NewObjectKey namespace secretName in
  let r := addSecretEventHandler namespace secretName handler fn s in
  exists a i,
    monitors r.2 !! k = Some a /\ objects r.2 !! a = Some i /\
    key i = k /\ stopped i = false /\
    (forall reg, r.1 = Ret (Ok reg) ->
       GetKey (Some reg) = Ret k /\ monitors r.2 !! objectKey reg = Some a).
Proof.
  intros Hwf k r.
  destruct (wf_addSecretEventHandler namespace secretName handler fn s Hwf)
    as [_ Hwf'].
  fold r in Hwf'.
  assert (Hmap : exists a i0, monitors r.2 !! k = Some a /\ key i0 = k /\
                   r.1 = Ret (AddEventHandler handler i0).1).
  { subst r. destruct (monitors s !! k) as [a|] eqn:Hk.
    - destruct (wf_mapped s Hwf _ _ Hk) as (i0 & Ha & Hki & _).
      rewrite (addSecretEventHandler_reuse _ _ _ _ _ _ _ Hk Ha). simpl.
      by exists a, i0.
    - rewrite (addSecretEventHandler_create _ _ _ _ _ Hk). simpl.
      eexists _, _. split; [apply lookup_insert_eq|]. split; [|reflexivity].
      done. }
  destruct Hmap as (a & i0 & Hka & Hki0 & Hr).
  destruct (wf_mapped _ Hwf' _ _ Hka) as (i & Ha & Hki & Hrun).
  exists a, i. do 4 (split; [done|]).
  intros reg Hreg. rewrite Hr in Hreg.
  destruct (AddEventHandler_cases handler i0)
    as (j1 & _ & _ & _ & [(e & Heq & _)|(t & Heq & _)]);
    rewrite Heq in Hreg; simpl in Hreg; [discriminate|].
  injection Hreg as <-. simpl. rewrite Hki0. done.
Qed.

(** ** What a call leaves alone *)

Lemma wf_running_open s (k : ObjectKey) (a : nat) :
  wf s -> monitors s !! k = Some a ->
  exists i, objects s !! a = Some i /\ key i = k /\
    stopped i = false /\ stopCh i = ChanOpen.
Proof.
  intros Hwf Hk. destruct (wf_mapped s Hwf _ _ Hk) as (i & Ha & Hki & Hrun).
  exists i. do 3 (split; [done|]).
  apply monitor_ok_running; [by apply (wf_chan s Hwf a)|done].
Qed.

Lemma exec_method_frame (c : @call Handler Token Informer) s (a : nat) i :
  wf s -> is_method c -> objects s !! a = Some i ->
  (forall k, call_key c = Some k -> monitors s !! k <> Some a) ->
  objects (exec c s).2 !! a = Some i.
Proof.
  intros Hwf Hm Ha Hother.
  pose proof (lookup_lt_Some _ _ _ Ha) as Hlt.
  destruct c as [ns name h fn|[reg|]|h|m inf]; simpl in Hm; try done.
  - specialize (Hother _ eq_refl). simpl.
    destruct (monitors s !! NewObjectKey ns name) as [a0|] eqn:Hk.
    + destruct (wf_mapped s Hwf _ _ Hk) as (i0 & Ha0 & _).
      rewrite (addSecretEventHandler_reuse _ _ _ _ _ _ _ Hk Ha0). simpl.
      rewrite list_lookup_insert_ne; [done|]. intros ->. done.
    + rewrite (addSecretEventHandler_create _ _ _ _ _ Hk). simpl.
      by rewrite lookup_app_l.
  - specialize (Hother _ eq_refl). unfold exec.
    destruct (monitors s !! objectKey reg) as [a0|] eqn:Hk.
    + destruct (wf_running_open s _ _ Hwf Hk) as (i0 & Ha0 & _ & Hrun & Hch).
      destruct (RemoveSecretEventHandler_mapped reg s a0 i0 Hk Ha0 Hrun Hch)
        as (i1 & _ & _ & _ &
            [(err & Heq & _)|[(Heq & _)|(Heq & _)]]);
        rewrite Heq; simpl;
        (rewrite list_lookup_insert_ne; [done|]); intros ->; done.
    + unfold RemoveSecretEventHandler. by rewrite Hk.
Qed.

Lemma exec_map_frame (c : @call Handler Token Informer) s (k' : ObjectKey) :
  wf s -> call_key c <> Some k' ->
  monitors (exec c s).2 !! k' = monitors s !! k'.
Proof.
  intros Hwf Hne.
  destruct c as [ns name h fn|[reg|]|h|m inf]; simpl in Hne.
  - simpl. destruct (monitors s !! NewObjectKey ns name) as [a0|] eqn:Hk.
    + destruct (wf_mapped s Hwf _ _ Hk) as (i0 & Ha0 & _).
      by rewrite (addSecretEventHandler_reuse _ _ _ _ _ _ _ Hk Ha0).
    + rewrite (addSecretEventHandler_create _ _ _ _ _ Hk). simpl.
      rewrite lookup_insert_ne; [done|]. congruence.
  - unfold exec.
    destruct (monitors s !! objectKey reg) as [a0|] eqn:Hk.
    + destruct (wf_running_open s _ _ Hwf Hk) as (i0 & Ha0 & _ & Hrun & Hch).
      destruct (RemoveSecretEventHandler_mapped reg s a0 i0 Hk Ha0 Hrun Hch)
        as (i1 & _ & _ & _ &
            [(err & Heq & _)|[(Heq & _)|(Heq & _)]]);
        rewrite Heq; simpl; try done.
      rewrite lookup_delete_ne; [done|]. congruence.
    + unfold RemoveSecretEventHandler. by rewrite Hk.
  - done.
  - simpl. by destruct (GetSecret h s).
  - simpl. by destruct (objects s !! m).
Qed.

(** X6. A call that does not name an identity leaves that identity as
    it is: its map entry is unchanged, and so is its monitor, counter and
    informer included. *)
Theorem other_identities_untouched (c : @call Handler Token Informer) s
    (k' : ObjectKey) :
  wf s -> is_method c -> call_key c <> Some k' ->
  monitors (exec c s).2 !! k' = monitors s !! k' /\
  (forall a i, monitors s !! k' = Some a -> objects s !! a = Some i ->
     objects (exec c s).2 !! a = Some i).
Proof.
  intros Hwf Hm Hne. split; [by apply exec_map_frame|].
  intros a i Hk' Ha. apply exec_method_frame; try done.
  intros k Hck Hk.
  destruct (wf_mapped s Hwf _ _ Hk) as (x & Hx & Hkx & _).
  destruct (wf_mapped s Hwf _ _ Hk') as (y & Hy & Hky & _).
  congruence.
Qed.

(** X7. A monitor that has been stopped is never used again: no call of
    the three methods changes it, whatever identity the call names. *)
Theorem stopped_monitor_never_used (c : @call Handler Token Informer) s
    (a : nat) i :
  wf s -> is_method c -> objects s !! a = Some i -> stopped i = true ->
  objects (exec c s).2 !! a = Some i.
Proof.
  intros Hwf Hm Ha Hs. apply exec_method_frame; try done.
  intros k _ Hk. destruct (wf_mapped s Hwf _ _ Hk) as (x & Hx & _ & Hrun).
  congruence.
Qed.

(** ** After the last handler has gone *)

Lemma RemoveSecretEventHandler_teardown reg s (a : nat) i i1 :
  wf s ->
  monitors s !! objectKey reg = Some a -> objects s !! a = Some i ->
  RemoveEventHandler (Some reg) i = (Ret None, i1) ->
  (numHandlers i1 <= 0)%Z ->
  RemoveSecretEventHandler (Some reg) s =
    (Ret None,
     {| objects := <[a := set_stopCh ChanClosed (set_stopped true i1)]> (objects s);
        monitors := delete (objectKey reg) (monitors s) |}).
Proof.
  intros Hwf Hk Ha Hrm Hle.
  destruct (wf_running_open s _ _ Hwf Hk) as (i' & Ha' & _ & Hrun & Hch).
  assert (i' = i) as -> by congruence.
  destruct (RemoveEventHandler_some reg i)
    as (j & _ & Hf2 & Hf3 & [(err & Heq & _)|(Heq & _ & _)]);
    rewrite Heq in Hrm; [discriminate|].
  injection Hrm as ->.
  unfold RemoveSecretEventHandler. rewrite Hk, Ha, Heq.
  apply Z.leb_le in Hle. rewrite Hle.
  rewrite StopInformer_running; [done| |congruence].
  unfold monitor_ok. rewrite Hf2, Hf3, Hrun, Hch. split; discriminate.
Qed.

Lemma exec_keeps_unmapped (c : @call Handler Token Informer) s (k : ObjectKey) :
  wf s -> monitors s !! k = None -> ~ adds_for k c ->
  monitors (exec c s).2 !! k = None.
Proof.
  intros Hwf Hk Hadd.
  destruct (call_key c) as [k0|] eqn:Hck.
  - destruct (decide (k0 = k)) as [->|Hne].
    + destruct c as [ns name h fn|[reg|]|[reg|]|m inf]; simpl in Hck, Hadd;
        try discriminate.
      * injection Hck as Hck. done.
      * injection Hck as Hck. unfold exec, RemoveSecretEventHandler.
        by rewrite Hck, Hk.
      * unfold exec. by destruct (GetSecret _ s).
    + rewrite exec_map_frame; [done..|]. congruence.
  - rewrite exec_map_frame; [done..|]. by rewrite Hck.
Qed.

Lemma run_keeps_unmapped (cs : list (@call Handler Token Informer)) s
    (k : ObjectKey) :
  wf s -> monitors s !! k = None -> Forall (fun c => ~ adds_for k c) cs ->
  monitors (run cs s) !! k = None.
Proof.
  revert s. induction cs as [|c cs IH]; intros s Hwf Hk Hcs; [done|].
  apply Forall_cons in Hcs. destruct Hcs as [Hc Hcs].
  change (run (c :: cs) s) with (run cs (exec c s).2).
  apply IH; [by apply wf_exec|by apply exec_keeps_unmapped|done].
Qed.

(** X8. After the removal of the last handler has torn the monitor down,
    and for as long as no handler is added again for that identity,
    whatever else is called: removing the same registration again returns
    nil and changes nothing, and [GetSecret] with it fails with the
    no-monitor error.  (Once the identity is added again the registration
    is directed to the new monitor: it names an identity, not a
    monitor.) *)
Theorem registration_unusable_until_readd reg s (a : nat) i i1
    (cs : list (@call Handler Token Informer)) :
  wf s ->
  monitors s !! objectKey reg = Some a -> objects s !! a = Some i ->
  RemoveEventHandler (Some reg) i = (Ret None, i1) ->
  (numHandlers i1 <= 0)%Z ->
  Forall (fun c => ~ adds_for (objectKey reg) c) cs ->
  let s2 := run cs (RemoveSecretEventHandler (Some reg) s).2 in
  monitors s2 !! objectKey reg = None /\
  RemoveSecretEventHandler (Some reg) s2 = (Ret None, s2) /\
  GetSecret (Some reg) s2 = Ret (Err (ErrNoMonitor (objectKey reg))).
Proof.
  intros Hwf Hk Ha Hrm Hle Hcs s2.
  assert (Hnone : monitors s2 !! objectKey reg = None).
  { subst s2. apply run_keeps_unmapped; [| |done].
    - by apply wf_RemoveSecretEventHandler.
    - rewrite (RemoveSecretEventHandler_teardown reg s a i i1 Hwf Hk Ha Hrm Hle).
      cbn [snd monitors]. apply lookup_delete_eq. }
  split; [done|].
  unfold RemoveSecretEventHandler, GetSecret. by rewrite Hnone.
Qed.

(** X9. A handler added for an identity after its monitor was torn down
    gets a new monitor: the identity is mapped to a fresh address, the
    monitor there is running and counts that handler alone (or none, if
    the informer refused it), and the old monitor stays stopped. *)
Theorem readd_after_teardown_is_fresh (namespace secretName : string)
    handler (fn : option Informer) reg s (a : nat) i i1 :
  wf s ->
  objectKey reg = NewObjectKey namespace secretName ->
  monitors s !! objectKey reg = Some a -> objects s !! a = Some i ->
  RemoveEventHandler (Some reg) i = (Ret None, i1) ->
  (numHandlers i1 <= 0)%Z ->
  let s1 := (RemoveSecretEventHandler (Some reg) s).2 in
  let s2 := (addSecretEventHandler namespace secretName handler fn s1).2 in
  monitors s1 !! objectKey reg = None /\
  monitors s2 !! objectKey reg = Some (length (objects s)) /\
  length (objects s) <> a /\
  (exists old, objects s2 !! a = Some old /\ stopped old = true) /\
  (exists new, objects s2 !! length (objects s) = Some new /\
     key new = objectKey reg /\ stopped new = false /\
     (numHandlers new = 0%Z \/ numHandlers new = 1%Z)).
Proof.
  intros Hwf Hkey Hk Ha Hrm Hle s1 s2. subst s2 s1.
  pose proof (lookup_lt_Some _ _ _ Ha) as Hlt.
  rewrite (RemoveSecretEventHandler_teardown reg s a i i1 Hwf Hk Ha Hrm Hle).
  cbn [snd].
  set (s1 := {| objects := _; monitors := _ |}).
  assert (Hnone : monitors s1 !! NewObjectKey namespace secretName = None).
  { subst s1. simpl. rewrite <- Hkey. apply lookup_delete_eq. }
  rewrite (addSecretEventHandler_create _ _ _ _ _ Hnone). cbn [snd objects monitors].
  assert (Hlen : length (objects s1) = length (objects s))
    by (subst s1; simpl; apply length_insert).
  rewrite Hlen, Hkey.
  split; [done|]. split; [apply lookup_insert_eq|]. split; [lia|]. split.
  - eexists. rewrite lookup_app_l by (rewrite Hlen; lia).
    subst s1. simpl. rewrite list_lookup_insert_eq by done. done.
  - eexists. rewrite list_lookup_middle by done. split; [reflexivity|].
    match goal with |- context [AddEventHandler handler ?j] =>
      destruct (AddEventHandler_cases handler j)
        as (j1 & H1 & H2 & H3 & [(e & Heq & Hc)|(t & Heq & Hc)]) end;
      rewrite Heq; simpl; rewrite H1, H2, Hc; simpl;
      (do 2 (split; [done|])); [by left|by right].
Qed.

(** ** Monitors are stopped only when idle *)

Lemma idle_update s (a : nat) i i1 :
  stopped_idle s -> objects s !! a = Some i ->
  stopped i1 = stopped i -> (stopped i = true -> numHandlers i1 = numHandlers i) ->
  stopped_idle (set_object a i1 s).
Proof.
  intros Hidle Ha Hs Hc b j Hb Hsj. simpl in Hb.
  apply list_lookup_insert_Some in Hb.
  destruct Hb as [(<- & <- & _)|(Hne & Hb)]; [|by apply (Hidle b j)].
  rewrite Hc by congruence. apply (Hidle a i); congruence.
Qed.

Lemma idle_exec (c : @call Handler Token Informer) s :
  wf s -> stopped_idle s -> stopped_idle (exec c s).2.
Proof.
  intros Hwf Hidle.
  destruct c as [ns name h fn|[reg|]|h|m inf]; unfold exec; try done.
  - destruct (monitors s !! NewObjectKey ns name) as [a0|] eqn:Hk.
    + destruct (wf_mapped s Hwf _ _ Hk) as (i0 & Ha0 & _ & Hrun).
      rewrite (addSecretEventHandler_reuse _ _ _ _ _ _ _ Hk Ha0). simpl.
      destruct (AddEventHandler_fields h i0) as (_ & Hf2 & _).
      eapply idle_update; [done..|]. congruence.
    + rewrite (addSecretEventHandler_create _ _ _ _ _ Hk). simpl.
      intros b j Hb Hsj. simpl in Hb. apply lookup_snoc_Some in Hb.
      destruct Hb as [(_ & Hb)|(_ & <-)]; [by apply (Hidle b j)|].
      match type of Hsj with context [AddEventHandler h ?x] =>
        destruct (AddEventHandler_fields h x) as (_ & Hf2 & _) end.
      rewrite Hf2 in Hsj. done.
  - destruct (monitors s !! objectKey reg) as [a0|] eqn:Hk.
    + destruct (wf_running_open s _ _ Hwf Hk) as (i0 & Ha0 & _ & Hrun & Hch).
      destruct (RemoveSecretEventHandler_mapped reg s a0 i0 Hk Ha0 Hrun Hch)
        as (i1 & _ & Hf2 & _ &
            [(err & Heq & _)|[(Heq & _)|(Heq & _ & Hle)]]);
        rewrite Heq; simpl.
      * eapply idle_update; [done..|congruence|congruence].
      * eapply idle_update; [done..|congruence|congruence].
      * intros b j Hb Hsj. simpl in Hb. apply list_lookup_insert_Some in Hb.
        destruct Hb as [(<- & <- & _)|(Hne & Hb)]; [done|].
        by apply (Hidle b j).
    + unfold RemoveSecretEventHandler. by rewrite Hk.
  - destruct (objects s !! m) as [j|] eqn:Hm; simpl; [|done].
    by eapply idle_update.
Qed.

Lemma idle_run (cs : list (@call Handler Token Informer)) s :
  wf s -> stopped_idle s -> stopped_idle (run cs s).
Proof.
  revert s. induction cs as [|c cs IH]; intros s Hwf Hidle; [done|].
  change (run (c :: cs) s) with (run cs (exec c s).2).
  apply IH; [by apply wf_exec|by apply idle_exec].
Qed.

(** X10. In every state reached from the empty monitor, a monitor that
    has been stopped counts no listener (its counter is at most 0), its
    channel is closed and the map no longer points to it: a monitor is
    only ever torn down idle. *)
Theorem stopped_monitors_are_idle (cs : list (@call Handler Token Informer))
    (a : nat) i :
  objects (run cs NewSecretMonitor) !! a = Some i ->
  stopped i = true ->
  (numHandlers i <= 0)%Z /\ stopCh i = ChanClosed /\
  forall k, monitors (run cs NewSecretMonitor) !! k <> Some a.
Proof.
  intros Ha Hs.
  assert (Hwf : wf (run cs (@NewSecretMonitor Informer))) by apply wf_run, wf_new.
  split; [|split].
  - eapply (idle_run cs NewSecretMonitor); [apply wf_new| |done..].
    intros b j Hb. simpl in Hb. by rewrite lookup_nil in Hb.
  - by apply (wf_chan _ Hwf a i Ha).
  - intros k Hk. destruct (wf_mapped _ Hwf _ _ Hk) as (x & Hx & _ & Hrun).
    congruence.
Qed.

(** ** With an informer that accepts every handler *)

Lemma listeners_weaken (n m : Z) s :
  (n <= m)%Z -> listeners_within n s -> listeners_within m s.
Proof. intros Hnm Hw k a i Hk Ha. specialize (Hw k a i Hk Ha). lia. Qed.

Lemma listeners_update (n : Z) s (a : nat) i1 :
  listeners_within n s -> (1 <= numHandlers i1 <= n)%Z ->
  listeners_within n (set_object a i1 s).
Proof.
  intros Hw Hb k b j Hk Hj. simpl in *.
  apply list_lookup_insert_Some in Hj.
  destruct Hj as [(-> & <- & _)|(Hne & Hj)]; [done|].
  by apply (Hw k b j).
Qed.

Lemma listeners_same (n : Z) s (a : nat) i i1 :
  listeners_within n s -> objects s !! a = Some i ->
  numHandlers i1 = numHandlers i ->
  listeners_within n (set_object a i1 s).
Proof.
  intros Hw Ha Hc k b j Hk Hj. simpl in *.
  apply list_lookup_insert_Some in Hj.
  destruct Hj as [(-> & <- & _)|(Hne & Hj)]; [|by apply (Hw k b j)].
  rewrite Hc. by apply (Hw k b i).
Qed.

Lemma AddEventHandler_accepted handler i :
  accepts_all -> stopped i = false ->
  numHandlers (AddEventHandler handler i).2 = int32_Add (numHandlers i) 1.
Proof.
  intros Hacc Hrun. unfold AddEventHandler. rewrite Hrun.
  destruct (Hacc handler (informer i)) as (t & inf' & ->). done.
Qed.

Lemma listeners_exec (c : @call Handler Token Informer) s (n : Z) :
  accepts_all -> wf s -> listeners_within n s -> (0 <= n < int32_max)%Z ->
  listeners_within (n + 1) (exec c s).2.
Proof.
  intros Hacc Hwf Hw Hn.
  assert (Hw1 : listeners_within (n + 1) s)
    by (eapply listeners_weaken; [|done]; lia).
  unfold int32_max in Hn.
  destruct c as [ns name h fn|[reg|]|h|m inf]; unfold exec; try done.
  - destruct (monitors s !! NewObjectKey ns name) as [a0|] eqn:Hk.
    + destruct (wf_mapped s Hwf _ _ Hk) as (i0 & Ha0 & _ & Hrun).
      rewrite (addSecretEventHandler_reuse _ _ _ _ _ _ _ Hk Ha0). simpl.
      apply listeners_update; [done|].
      specialize (Hw _ _ _ Hk Ha0).
      rewrite AddEventHandler_accepted by done.
      rewrite int32_Add_small; unfold int32_min, int32_max; lia.
    + rewrite (addSecretEventHandler_create _ _ _ _ _ Hk). simpl.
      intros k b j Hkb Hb. simpl in Hkb, Hb.
      apply lookup_insert_Some in Hkb. apply lookup_snoc_Some in Hb.
      destruct Hb as [(Hlt & Hb)|(-> & <-)].
      * destruct Hkb as [(_ & <-)|(_ & Hkb)]; [lia|]. by apply (Hw1 k b j).
      * rewrite AddEventHandler_accepted by done. simpl.
        rewrite int32_Add_small; unfold int32_min, int32_max; lia.
  - destruct (monitors s !! objectKey reg) as [a0|] eqn:Hk.
    + destruct (wf_running_open s _ _ Hwf Hk) as (i0 & Ha0 & _ & Hrun & Hch).
      specialize (Hw _ _ _ Hk Ha0).
      destruct (RemoveSecretEventHandler_mapped reg s a0 i0 Hk Ha0 Hrun Hch)
        as (i1 & _ & _ & _ &
            [(err & Heq & Hc)|[(Heq & Hc & Hpos)|(Heq & _ & _)]]);
        rewrite Heq; simpl.
      * apply listeners_update; [done|]. rewrite Hc. lia.
      * apply listeners_update; [done|].
        rewrite int32_Add_small in Hc by (unfold int32_min, int32_max; lia).
        lia.
      * intros k b j Hkb Hb. simpl in Hkb, Hb.
        apply lookup_delete_Some in Hkb. destruct Hkb as (Hne & Hkb).
        apply list_lookup_insert_Some in Hb.
        destruct Hb as [(<- & _ & _)|(_ & Hb)]; [|by apply (Hw1 k b j)].
        destruct (wf_mapped s Hwf _ _ Hk) as (x & Hx & Hkx & _).
        destruct (wf_mapped s Hwf _ _ Hkb) as (y & Hy & Hky & _).
        congruence.
    + unfold RemoveSecretEventHandler. by rewrite Hk.
  - destruct (objects s !! m) as [j|] eqn:Hm; simpl; [|done].
    by eapply listeners_same.
Qed.

Lemma listeners_run (cs : list (@call Handler Token Informer)) s (n : Z) :
  accepts_all -> wf s -> listeners_within n s ->
  (0 <= n)%Z -> (n + Z.of_nat (length cs) <= int32_max)%Z ->
  listeners_within (n + Z.of_nat (length cs)) (run cs s).
Proof.
  intros Hacc. revert s n.
  induction cs as [|c cs IH]; intros s n Hwf Hw Hn Hlen.
  - simpl. by rewrite Z.add_0_r.
  - change (run (c :: cs) s) with (run cs (exec c s).2).
    cbn [length] in *. unfold int32_max in *.
    replace (n + Z.of_nat (S (length cs)))%Z
      with ((n + 1) + Z.of_nat (length cs))%Z by lia.
    apply IH; [by apply wf_exec| |lia|unfold int32_max; lia].
    apply listeners_exec; [done..|unfold int32_max; lia].
Qed.

(** X11. When the informer never refuses a handler, every key in the
    map has at least one listener counted, in every state reached from
    the empty monitor by fewer than 2^31 calls. *)
Theorem mapped_monitors_have_listeners (cs : list (@call Handler Token Informer))
    (k : ObjectKey) (a : nat) i :
  accepts_all ->
  (Z.of_nat (length cs) < 2 ^ 31)%Z ->
  monitors (run cs NewSecretMonitor) !! k = Some a ->
  objects (run cs NewSecretMonitor) !! a = Some i ->
  (1 <= numHandlers i)%Z.
Proof.
  intros Hacc Hlen Hk Ha.
  assert (Hw : listeners_within (0 + Z.of_nat (length cs)) (run cs NewSecretMonitor)).
  { apply listeners_run; [done|apply wf_new| |lia|unfold int32_max; lia].
    intros k' a' i' Hk'. simpl in Hk'. by rewrite lookup_empty in Hk'. }
  specialize (Hw k a i Hk Ha). lia.
Qed.

(** ** Through the public interface *)




(** ** The store key *)

Lemma append_slash_inj (ns1 ns2 n1 n2 : string) :
  slash_free ns1 = true -> slash_free ns2 = true ->
  (ns1 +:+ "/" +:+ n1 = ns2 +:+ "/" +:+ n2)%string ->
  ns1 = ns2 /\ n1 = n2.
Proof.
  assert (Hnil : forall t : string, ("" +:+ t)%string = t) by reflexivity.
  assert (Hcons : forall c (u t : string),
            (String c u +:+ t)%string = String c (u +:+ t)) by reflexivity.
  revert ns2. induction ns1 as [|c1 ns1 IH]; intros [|c2 ns2] H1 H2 Heq;
    simpl in H1, H2; repeat (rewrite Hcons in Heq || rewrite Hnil in Heq).
  - by injection Heq as ->.
  - injection Heq as <- _. by rewrite Ascii.eqb_refl in H2.
  - injection Heq as -> _. by rewrite Ascii.eqb_refl in H1.
  - injection Heq as -> Heq.
    apply andb_prop in H1 as [_ H1]. apply andb_prop in H2 as [_ H2].
    destruct (IH ns2 H1 H2 Heq) as [-> ->]. done.
Qed.

Lemma GetItem_keyFunc i :
  GetItem i = informer_GetByKey (keyFunc (key i)) (informer i).
Proof. reflexivity. Qed.

(** X12. [GetItem] asks the store for "namespace/name".  Two identities
    whose namespaces hold no slash are asked for under different names:
    the store key determines the identity. *)
Theorem keyFunc_injective (k1 k2 : ObjectKey) :
  slash_free (Namespace k1) = true -> slash_free (Namespace k2) = true ->
  keyFunc k1 = keyFunc k2 -> k1 = k2.
Proof.
  intros H1 H2 Heq. destruct k1 as [ns1 n1], k2 as [ns2 n2]. simpl in *.
  destruct (append_slash_inj ns1 ns2 n1 n2 H1 H2 Heq) as [-> ->]. done.
Qed.

(** X13. In a well-formed state [GetSecret] answers from the store of
    the monitor mapped for the registration's identity, under the name
    "namespace/name" of that identity: it returns the secret found there,
    and the not-in-cache error when the store has no such entry. *)
Theorem GetSecret_reads_own_key reg s (a : nat) i :
  wf s ->
  monitors s !! objectKey reg = Some a -> objects s !! a = Some i ->
  (forall x, informer_GetByKey (keyFunc (objectKey reg)) (informer i)
               = (ItemSecret x, true, None) ->
     GetSecret (Some reg) s = Ret (Ok x)) /\
  (forall u e, informer_GetByKey (keyFunc (objectKey reg)) (informer i)
                 = (u, false, e) ->
     GetSecret (Some reg) s = Ret (Err (ErrNotInCache (Name (objectKey reg))))).
Proof.
  intros Hwf Hk Ha.
  destruct (wf_mapped s Hwf _ _ Hk) as (i' & Ha' & Hki & _).
  assert (i' = i) as -> by congruence.
  assert (Hget : GetItem i = informer_GetByKey (keyFunc (objectKey reg)) (informer i))
    by (unfold GetItem, keyFunc; by rewrite Hki).
  split.
  - intros x Hx. unfold GetSecret. by rewrite Hk, Ha, Hget, Hx.
  - intros u e Hx. unfold GetSecret. by rewrite Hk, Ha, Hget, Hx.
Qed.

End Coverage.

(** * The package on concrete inputs *)

Lemma StopInformer_idempotent_witness :
  let i := mrun [MAdd testHandler; MRemove (Some testRegistration)] testMonitor in
  monitor_ok i /\
  exists i1, StopInformer i = (Ret true, i1) /\
    stopped i1 = true /\ stopCh i1 = ChanClosed /\
    StopInformer i1 = (Ret false, i1).
Proof.
  intros i.
  assert (Hok : monitor_ok i) by apply monitor_ok_mrun, monitor_ok_new.
  split; [exact Hok|].
  apply (StopInformer_idempotent (Handler := option string) (Token := option nat) i);
    [exact Hok|reflexivity].
Defined.

Lemma AddEventHandler_spec_witness :
  stopped testMonitor = false /\
  exists reg i1,
    AddEventHandler testHandler testMonitor = (Ok reg, i1) /\
    GetKey (Some reg) = Ret testKey /\
    GetHandler (Some reg) = Ret (Some 0%nat) /\
    numHandlers i1 = 1%Z.
Proof.
  split; [reflexivity|].
  destruct (proj2 (AddEventHandler_spec testHandler testMonitor)
              (Some 0%nat) (snd (fake_add testHandler (fake_new "ns" "secret"))))
    as (reg & i1 & H1 & H2 & H3 & _ & H5 & _); [reflexivity..|].
  exists reg, i1. do 3 (split; [done|]).
  rewrite H5; [reflexivity|by vm_compute].
Defined.

Lemma RemoveEventHandler_nil_panics :
  (RemoveEventHandler None testMonitor).1 = Panic /\
  ~ exists err : error, (RemoveEventHandler None testMonitor).1 = Ret (Some err).
Proof.
  split; [reflexivity|]. intros [err Herr]. discriminate Herr.
Qed.

Lemma RemoveEventHandler_stopped_witness :
  stopped (StopInformer testMonitor).2 = true /\
  RemoveEventHandler (Some testRegistration) (StopInformer testMonitor).2 =
    (Ret (Some ErrRemoveFromStopped), (StopInformer testMonitor).2).
Proof.
  split; [reflexivity|].
  apply (proj1 (RemoveEventHandler_stopped_and_nil_guard
                  (Handler := option string) (Secret := string))).
  reflexivity.
Defined.

Lemma testState_wf : wf testState.
Proof. apply wf_run, wf_new. Qed.

Lemma RemoveSecretEventHandler_nil_or_absent_witness :
  monitors testState !! objectKey otherRegistration = None /\
  RemoveSecretEventHandler (Some otherRegistration) testState = (Ret None, testState).
Proof.
  split; [by vm_compute|].
  apply (proj2 (RemoveSecretEventHandler_nil_or_absent
                  (Handler := option string) (Secret := string) testState)).
  by vm_compute.
Defined.

Lemma RemoveSecretEventHandler_delegated_failure_witness :
  monitors testState !! objectKey foreignRegistration = Some 0%nat /\
  exists i i1 s1,
    objects testState !! 0%nat = Some i /\
    RemoveEventHandler (Some foreignRegistration) i
      = (Ret (Some (ErrInformer "invalid key type")), i1) /\
    RemoveSecretEventHandler (Some foreignRegistration) testState
      = (Ret (Some (ErrInformer "invalid key type")), s1) /\
    monitors s1 = monitors testState /\
    numHandlers i1 = numHandlers i /\ stopped i1 = stopped i.
Proof.
  split; [by vm_compute|].
  destruct (RemoveSecretEventHandler_delegated_failure
              (Handler := option string) (Secret := string)
              testState foreignRegistration 0%nat
              (AddEventHandler testHandler testMonitor).2
              (AddEventHandler testHandler testMonitor).2
              (ErrInformer "invalid key type"))
    as (s1 & H1 & H2 & H3 & H4 & H5 & H6 & H7);
    [by vm_compute|by vm_compute|by vm_compute|].
  exists (AddEventHandler testHandler testMonitor).2,
         (AddEventHandler testHandler testMonitor).2, s1.
  split; [by vm_compute|]. split; [by vm_compute|]. done.
Defined.

Lemma RemoveSecretEventHandler_last_listener_witness :
  wf testState /\
  exists i2,
    stopped i2 = true /\ stopCh i2 = ChanClosed /\
    RemoveSecretEventHandler (Some testRegistration) testState =
      (Ret None, {| objects := <[0%nat := i2]> (objects testState);
                    monitors := delete testKey (monitors testState) |}).
Proof.
  split; [exact testState_wf|].
  destruct (RemoveSecretEventHandler_last_listener
              (Handler := option string) (Secret := string)
              testState testRegistration 0%nat
              (AddEventHandler testHandler testMonitor).2
              (RemoveEventHandler (Some testRegistration)
                 (AddEventHandler testHandler testMonitor).2).2
              testState_wf)
    as [Hzero _]; [by vm_compute|by vm_compute|by vm_compute|].
  destruct Hzero as (i2 & _ & H2 & H3 & H4); [by vm_compute|].
  exists i2. done.
Defined.

(** Through the test entry point, an informer that has already stopped
    refuses the first handler after the monitor has been created and
    filed: the key is in the map and its monitor counts no listener. *)
Example stopped_informer_leaves_entry :
  monitors refusedState !! testKey = Some 0%nat /\
  objects refusedState = [newSingleItemMonitor testKey fake_stopped].
Proof. by vm_compute. Qed.

Lemma monitors_membership_invariant_witness :
  let s := run [CallAdd "ns" "secret" testHandler None;
                CallAdd "ns" "secret" testHandler None;
                CallRemove (Some testRegistration)] NewSecretMonitor in
  monitors s !! testKey = Some 0%nat /\
  exists i, objects s !! 0%nat = Some i /\ key i = testKey /\ stopped i = false.
Proof.
  intros s. split; [by vm_compute|].
  apply (proj1 (monitors_membership_invariant
           [CallAdd "ns" "secret" testHandler None;
            CallAdd "ns" "secret" testHandler None;
            CallRemove (Some testRegistration)]) testKey 0%nat).
  by vm_compute.
Defined.

(** The same registration removed twice: the informer accepts the second
    removal as it did the first, and the counter goes below zero. *)
Lemma numHandlers_negative_counterexample :
  let i := mrun [MAdd testHandler; MRemove (Some testRegistration)] testMonitor in
  numHandlers i = 0%Z /\
  RemoveEventHandler (Some testRegistration) i
    = (Ret None, mrun [MRemove (Some testRegistration)] i) /\
  numHandlers (mrun [MRemove (Some testRegistration)] i) = (-1)%Z.
Proof. by vm_compute. Qed.

Lemma numHandlers_accounting_witness :
  let cs := [CallAdd "ns" "secret" testHandler None;
             CallAdd "ns" "secret" testHandler None;
             CallRemove (Some testRegistration)] in
  (Z.of_nat (length cs) < 2 ^ 31)%Z /\
  monitors (run cs NewSecretMonitor) !! testKey = Some 0%nat /\
  exists i, objects (run cs NewSecretMonitor) !! 0%nat = Some i /\
    (0 <= numHandlers i)%Z.
Proof.
  intros cs. split; [by vm_compute|]. split; [by vm_compute|].
  eexists. split; [by vm_compute|].
  apply (proj2 (numHandlers_accounting (Secret := string)) cs
           ltac:(by vm_compute) testKey 0%nat); by vm_compute.
Defined.

(** The store reports an error together with the entry: [GetSecret]
    returns that error although the registration is not nil, its key is
    mapped, and the object is in the cache and is a secret. *)
Lemma GetSecret_store_error_counterexample :
  let s := run [CallAdd "ns" "secret" testHandler (Some fake_with_store_error)]
               NewSecretMonitor in
  monitors s !! objectKey testRegistration = Some 0%nat /\
  (exists i, objects s !! 0%nat = Some i /\
     GetItem i = (ItemSecret "payload"%string, true, Some (ErrInformer "store failure"))) /\
  GetSecret (Some testRegistration) s = Ret (Err (ErrInformer "store failure")) /\
  GetSecret (Some testRegistration) s <> Ret (Ok "payload"%string).
Proof.
  intros s. split; [by vm_compute|]. split; [eexists; by vm_compute|].
  split; [by vm_compute|]. by vm_compute.
Qed.

Lemma GetSecret_cases_witness :
  let s := run [CallAdd "ns" "secret" testHandler (Some fake_with_secret)]
               NewSecretMonitor in
  monitors s !! objectKey otherRegistration = None /\
  GetSecret (Some otherRegistration) s
    = Ret (Err (ErrNoMonitor (objectKey otherRegistration))) /\
  monitors s !! objectKey testRegistration = Some 0%nat /\
  GetSecret (Some testRegistration) s = Ret (Ok "payload"%string).
Proof.
  intros s.
  destruct (GetSecret_cases (Handler := option string) s) as (_ & Habsent & Hmapped & _).
  split; [by vm_compute|]. split; [apply Habsent; by vm_compute|].
  split; [by vm_compute|].
  destruct (Hmapped testRegistration 0%nat
              (AddEventHandler testHandler
                 (newSingleItemMonitor testKey fake_with_secret)).2
              (ItemSecret "payload"%string) true None)
    as (_ & _ & _ & Hfound); [by vm_compute..|].
  by apply Hfound.
Defined.

Lemma one_monitor_per_identity_witness :
  let cs := [CallAdd "ns" "secret" testHandler None;
             CallAdd "ns" "secret" testHandler None;
             CallRemove (Some testRegistration)] in
  let t := trace cs NewSecretMonitor in
  monitors (@NewSecretMonitor fakeInformer) !! testKey = None /\
  Forall (targets testKey) cs /\
  Forall (fun x => is_Some (monitors x.2 !! testKey)) t /\
  Forall (fun x => length (objects x.2) = 1%nat /\ monitors x.2 !! testKey = Some 0%nat) t /\
  exists i, objects (run cs NewSecretMonitor) !! 0%nat = Some i /\
    numHandlers i = 1%Z /\
    numHandlers i = (count_ok is_add_ok t - count_ok is_remove_ok t)%Z.
Proof.
  intros cs t.
  assert (H1 : monitors (@NewSecretMonitor fakeInformer) !! testKey = None)
    by (by vm_compute).
  assert (H2 : Forall (targets testKey) cs) by (repeat constructor).
  assert (H3 : Forall (fun x => is_Some (monitors x.2 !! testKey)) t).
  { subst t cs. rewrite !trace_cons.
    repeat (apply Forall_cons; split; [eexists; by vm_compute|]). constructor. }
  do 3 (split; [done|]).
  destruct (one_monitor_per_identity "ns" "secret" cs NewSecretMonitor H1
              ltac:(done) H2 H3) as (T1 & _ & i & Ha & _ & _ & Hcnt).
  split; [exact T1|].
  exists i. split; [exact Ha|].
  assert (Hi : numHandlers i = 1%Z).
  { assert (Hobj : Some i
                   = Some (mrun [MAdd testHandler; MAdd testHandler;
                                 MRemove (Some testRegistration)] testMonitor))
      by (rewrite <- Ha; by vm_compute).
    injection Hobj as ->. by vm_compute. }
  split; [exact Hi|]. apply Hcnt. by vm_compute.
Defined.

(** ** The scenarios of the package's tests *)

(** Two handlers on one secret share one monitor; the monitor goes when
    the second of them is removed. *)
Example two_handlers_one_monitor :
  let reg1 : @secretEventHandlerRegistration (option nat) :=
    {| ResourceEventHandlerRegistration := Some 1%nat; objectKey := testKey |} in
  let t := trace [CallAdd "ns" "secret" testHandler None;
                  CallAdd "ns" "secret" testHandler None;
                  CallRemove (Some testRegistration);
                  CallRemove (Some reg1);
                  CallRemove (Some reg1)] NewSecretMonitor in
  t.*1 = [Ret (ReplyAdd (Ok testRegistration)); Ret (ReplyAdd (Ok reg1));
          Ret (ReplyRemove None); Ret (ReplyRemove None); Ret (ReplyRemove None)] /\
  (fun s => (numHandlers <$> objects s, stopped <$> objects s, monitors s !! testKey))
    <$> t.*2
  = [([1%Z], [false], Some 0%nat); ([2%Z], [false], Some 0%nat);
     ([1%Z], [false], Some 0%nat); ([0%Z], [true], None); ([0%Z], [true], None)].
Proof. by vm_compute. Qed.

(** After a teardown the next handler gets a new monitor. *)
Example new_monitor_after_teardown :
  let s := run [CallAdd "ns" "secret" testHandler None;
                CallRemove (Some testRegistration);
                CallAdd "ns" "secret" testHandler None] NewSecretMonitor in
  monitors s !! testKey = Some 1%nat /\
  stopped <$> objects s = [true; false].
Proof. by vm_compute. Qed.

Example GetSecret_scenarios :
  GetSecret None testState = Ret (Err ErrNilRegistration) /\
  GetSecret (Some otherRegistration) testState
    = Ret (Err (ErrNoMonitor (NewObjectKey "ns" "other"))) /\
  GetSecret (Some testRegistration) testState = Ret (Err (ErrNotInCache "secret")) /\
  GetSecret (Some testRegistration)
    (run [CallAdd "ns" "secret" testHandler (Some fake_with_other)] NewSecretMonitor)
    = Ret (Err ErrUnexpectedType) /\
  GetSecret (Some testRegistration)
    (run [CallAdd "ns" "secret" testHandler (Some fake_with_secret)] NewSecretMonitor)
    = Ret (Ok "payload"%string).
Proof. by vm_compute. Qed.

(** ** The further properties on concrete inputs *)

Lemma stopped_monitor_is_frozen_witness :
  let i := (StopInformer testMonitor).2 in
  stopped i = true /\
  mrun [MAdd testHandler; MRemove None; MRemove (Some testRegistration); MStop] i = i.
Proof.
  intros i. split; [reflexivity|].
  apply (stopped_monitor_is_frozen (Secret := string)). reflexivity.
Defined.

Lemma add_then_remove_restores_counter_witness :
  let i1 := (AddEventHandler testHandler testMonitor).2 in
  let i2 := (RemoveEventHandler (Some testRegistration) i1).2 in
  AddEventHandler testHandler testMonitor = (Ok testRegistration, i1) /\
  RemoveEventHandler (Some testRegistration) i1 = (Ret None, i2) /\
  numHandlers i2 = numHandlers testMonitor.
Proof.
  intros i1 i2. split; [reflexivity|]. split; [reflexivity|].
  apply (add_then_remove_restores_counter testHandler testMonitor
           testRegistration i1 i2); [by vm_compute|reflexivity|reflexivity].
Defined.

Lemma addSecretEventHandler_delegated_failure_witness :
  monitors refusedState !! NewObjectKey "ns" "secret" = Some 0%nat /\
  exists i s1,
    objects refusedState !! 0%nat = Some i /\
    addSecretEventHandler "ns" "secret" testHandler None refusedState
      = (Ret (Err (ErrInformer "informer has stopped already")), s1) /\
    monitors s1 = monitors refusedState /\
    objects s1 !! 0%nat = Some i.
Proof.
  split; [by vm_compute|].
  destruct (addSecretEventHandler_delegated_failure (Secret := string)
              "ns" "secret" testHandler None refusedState 0%nat
              (newSingleItemMonitor testKey fake_stopped)
              (newSingleItemMonitor testKey fake_stopped)
              (ErrInformer "informer has stopped already"))
    as (s1 & H1 & H2 & H3 & _); [by vm_compute..|].
  exists (newSingleItemMonitor testKey fake_stopped), s1.
  split; [by vm_compute|]. do 2 (split; [done|]).
  rewrite H3. by vm_compute.
Defined.

Lemma addSecretEventHandler_maps_key_witness :
  wf testState /\
  exists a i,
    monitors (addSecretEventHandler "ns" "other" testHandler None testState).2
      !! NewObjectKey "ns" "other" = Some a /\
    objects (addSecretEventHandler "ns" "other" testHandler None testState).2
      !! a = Some i /\
    key i = NewObjectKey "ns" "other" /\ stopped i = false.
Proof.
  split; [exact testState_wf|].
  destruct (addSecretEventHandler_maps_key "ns" "other" testHandler None
              testState testState_wf) as (a & i & H1 & H2 & H3 & H4 & _).
  by exists a, i.
Defined.

Lemma other_identities_untouched_witness :
  let c := CallAdd "ns" "other" testHandler None in
  wf testState /\ is_method c /\ call_key c <> Some testKey /\
  monitors (exec c testState).2 !! testKey = monitors testState !! testKey.
Proof.
  intros c.
  assert (Hne : call_key c <> Some testKey) by (intros [=]).
  do 3 (split; [first [exact testState_wf|exact I|exact Hne]|]).
  apply (other_identities_untouched c testState testKey testState_wf I Hne).
Defined.

(** The state after the only handler of "ns"/"secret" has been removed. *)
Lemma stopped_monitor_never_used_witness :
  let s := run [CallAdd "ns" "secret" testHandler None;
                CallRemove (Some testRegistration)] NewSecretMonitor in
  let c := CallAdd "ns" "secret" testHandler None in
  exists i, objects s !! 0%nat = Some i /\ stopped i = true /\
    objects (exec c s).2 !! 0%nat = Some i.
Proof.
  intros s c.
  assert (Hwf : wf s) by apply wf_run, wf_new.
  eexists. split; [by vm_compute|]. split; [by vm_compute|].
  apply (stopped_monitor_never_used c s 0%nat _ Hwf I); by vm_compute.
Defined.

Lemma registration_unusable_until_readd_witness :
  let cs := [CallAdd "ns" "other" testHandler None;
             CallRemove (Some testRegistration);
             CallGet (Some testRegistration)] in
  let s2 := run cs (RemoveSecretEventHandler (Some testRegistration) testState).2 in
  wf testState /\
  monitors testState !! objectKey testRegistration = Some 0%nat /\
  Forall (fun c => ~ adds_for (objectKey testRegistration) c) cs /\
  RemoveSecretEventHandler (Some testRegistration) s2 = (Ret None, s2) /\
  GetSecret (Some testRegistration) s2 = Ret (Err (ErrNoMonitor testKey)).
Proof.
  intros cs s2. split; [exact testState_wf|]. split; [by vm_compute|].
  assert (Hcs : Forall (fun c => ~ adds_for (objectKey testRegistration) c) cs).
  { subst cs.
    repeat (apply Forall_cons; split;
            [simpl; intros H; first [discriminate H|exact H]|]).
    constructor. }
  split; [exact Hcs|].
  apply (registration_unusable_until_readd testRegistration testState 0%nat
           (AddEventHandler testHandler testMonitor).2
           (RemoveEventHandler (Some testRegistration)
              (AddEventHandler testHandler testMonitor).2).2
           cs testState_wf); [by vm_compute..|exact Hcs].
Defined.

Lemma readd_after_teardown_is_fresh_witness :
  let s1 := (RemoveSecretEventHandler (Some testRegistration) testState).2 in
  let s2 := (addSecretEventHandler "ns" "secret" testHandler None s1).2 in
  wf testState /\
  monitors testState !! testKey = Some 0%nat /\
  monitors s1 !! testKey = None /\
  monitors s2 !! testKey = Some 1%nat.
Proof.
  intros s1 s2. split; [exact testState_wf|]. split; [by vm_compute|].
  destruct (readd_after_teardown_is_fresh "ns" "secret" testHandler None
              testRegistration testState 0%nat
              (AddEventHandler testHandler testMonitor).2
              (RemoveEventHandler (Some testRegistration)
                 (AddEventHandler testHandler testMonitor).2).2
              testState_wf) as (H1 & H2 & _); [by vm_compute..|].
  split; [exact H1|exact H2].
Defined.

Lemma stopped_monitors_are_idle_witness :
  let cs := [CallAdd "ns" "secret" testHandler None;
             CallRemove (Some testRegistration)] in
  let i := mrun [MAdd testHandler; MRemove (Some testRegistration); MStop]
                testMonitor in
  objects (run cs NewSecretMonitor) !! 0%nat = Some i /\
  stopped i = true /\ (numHandlers i <= 0)%Z /\ stopCh i = ChanClosed.
Proof.
  intros cs i.
  assert (Ha : objects (run cs NewSecretMonitor) !! 0%nat = Some i)
    by (by vm_compute).
  assert (Hs : stopped i = true) by reflexivity.
  do 2 (split; [done|]).
  destruct (stopped_monitors_are_idle cs 0%nat i Ha Hs) as (H1 & H2 & _).
  split; [exact H1|exact H2].
Defined.

Lemma countingInformer_accepts_all :
  @accepts_all unit nat string nat countingInformer.
Proof. intros h inf. by exists inf, (S inf). Qed.

Lemma mapped_monitors_have_listeners_witness :
  let cs : list (@call unit nat nat) :=
    [CallAdd "ns" "secret" tt None; CallAdd "ns" "secret" tt None;
     CallRemove (Some {| ResourceEventHandlerRegistration := 0%nat;
                         objectKey := testKey |})] in
  let s := @run unit nat string nat countingInformer cs NewSecretMonitor in
  @accepts_all unit nat string nat countingInformer /\
  monitors s !! testKey = Some 0%nat /\
  exists i, objects s !! 0%nat = Some i /\ (1 <= numHandlers i)%Z.
Proof.
  intros cs s. split; [exact countingInformer_accepts_all|].
  split; [by vm_compute|]. eexists. split; [by vm_compute|].
  apply (@mapped_monitors_have_listeners unit nat string nat countingInformer
           cs testKey 0%nat _ countingInformer_accepts_all);
    by vm_compute.
Defined.

Lemma keyFunc_injective_witness :
  slash_free (Namespace testKey) = true /\
  keyFunc testKey = "ns/secret"%string /\
  forall name : string, keyFunc (NewObjectKey "ns" name) = keyFunc testKey ->
    NewObjectKey "ns" name = testKey.
Proof.
  split; [reflexivity|]. split; [reflexivity|].
  intros name. apply (keyFunc_injective (NewObjectKey "ns" name) testKey);
    reflexivity.
Defined.

(** Without the condition the store key does not tell identities apart. *)
Example keyFunc_collision :
  keyFunc (NewObjectKey "a/b" "c") = keyFunc (NewObjectKey "a" "b/c") /\
  NewObjectKey "a/b" "c" <> NewObjectKey "a" "b/c".
Proof. split; [reflexivity|discriminate]. Qed.

Lemma GetSecret_reads_own_key_witness :
  let s := run [CallAdd "ns" "secret" testHandler (Some fake_with_secret)]
               NewSecretMonitor in
  wf s /\
  monitors s !! objectKey testRegistration = Some 0%nat /\
  GetSecret (Some testRegistration) s = Ret (Ok "payload"%string).
Proof.
  intros s.
  assert (Hwf : wf s) by apply wf_run, wf_new.
  split; [exact Hwf|]. split; [by vm_compute|].
  apply (proj1 (GetSecret_reads_own_key (Handler := option string)
                  testRegistration s 0%nat
                  (AddEventHandler testHandler
                     (newSingleItemMonitor testKey fake_with_secret)).2
                  Hwf ltac:(by vm_compute) ltac:(by vm_compute))).
  by vm_compute.
Defined.

(** ** The counter at its bound *)



#[local] Existing Instance countingInformer.





